(** * KYLLM-AgentChatUI: the Thread view and the LLM visualization tool

    A shallow embedding of the event handlers and effects of

      - the source of the [Thread] component (with its inline copy of
        [LLMVizTool]): [handleSubmit], [handleRegenerate], the effect on
        [stream.error], the effect on [messages], [chatStarted];
      - [src/components/thread/tools/llm-visualizer.tsx], the stand-alone
        copy of [LLMVizTool]: [handleControlSubmit];

    together with the properties the specification states about them.

    JavaScript values are modelled as the code has them: strings are
    sequences of UTF-16 code units, [string | undefined] is an [option],
    React state and refs are fields of a record that the handlers thread
    through, calls to the external collaborators ([stream.submit],
    [toast.error], [console.error], [uuidv4]) are appended to a log, and a
    handler completes either normally or by throwing.  A handler reads the
    values of the render it was created in and never reads a state cell
    after setting it, so applying a setter at once is the same as queueing
    it for the next render. *)

From Stdlib Require Import Ascii String.
From Stdlib Require Import List Bool Arith NArith ZArith Lia.
From Stdlib Require Decimal DecimalNat DecimalString DecimalFacts.
From Stdlib Require FinFun Finite.
Import ListNotations.

(* ------------------------------------------------------------------ *)
(** * JavaScript strings *)

Module JsString.

(** A JavaScript string is a finite sequence of UTF-16 code units. *)
Definition t := list N.

Definition of_ascii (s : string) : t :=
  List.map N_of_ascii (list_ascii_of_string s).

Definition eqb (a b : t) : bool :=
  if list_eq_dec N.eq_dec a b then true else false.

(** [ToBoolean] on a string: only the empty string is falsy. *)
Definition truthy (s : t) : bool :=
  match s with [] => false | _ :: _ => true end.

(** [ToBoolean] on [string | undefined]. *)
Definition truthy_opt (s : option t) : bool :=
  match s with None => false | Some s => truthy s end.

(** ECMAScript [WhiteSpace] and [LineTerminator] code points, the ones
    [String.prototype.trim] strips.  All of them lie in the Basic
    Multilingual Plane, so the test on code units is exact. *)
Definition is_white_space (c : N) : bool :=
  ((9 <=? c) && (c <=? 13)        (* TAB, LF, VT, FF, CR *)
   || (c =? 32)                   (* SPACE *)
   || (c =? 160)                  (* NO-BREAK SPACE *)
   || (c =? 5760)                 (* U+1680 *)
   || ((8192 <=? c) && (c <=? 8202))  (* U+2000 .. U+200A *)
   || (c =? 8232) || (c =? 8233)  (* LS, PS *)
   || (c =? 8239)                 (* U+202F *)
   || (c =? 8287)                 (* U+205F *)
   || (c =? 12288)                (* U+3000 *)
   || (c =? 65279))%N.            (* U+FEFF *)

Fixpoint trimStart (s : t) : t :=
  match s with
  | [] => []
  | c :: r => if is_white_space c then trimStart r else s
  end.

Definition trimEnd (s : t) : t := rev (trimStart (rev s)).

Definition trim (s : t) : t := trimEnd (trimStart s).

(** Lower-case hexadecimal digit of a value below 16. *)
Definition hex_digit (d : N) : N :=
  (if d <? 10 then 48 + d else 87 + d)%N.

(** The six code units [\uXXXX] of a code unit. *)
Definition unicode_escape (c : N) : t :=
  [92; 117;
   hex_digit ((c / 4096) mod 16); hex_digit ((c / 256) mod 16);
   hex_digit ((c / 16) mod 16); hex_digit (c mod 16)]%N.

Definition is_leading_surrogate (c : N) : bool :=
  ((55296 <=? c) && (c <=? 56319))%N.
Definition is_trailing_surrogate (c : N) : bool :=
  ((56320 <=? c) && (c <=? 57343))%N.

(** Escape of one code point that is not part of a surrogate pair
    (ECMAScript [QuoteJSONString], table of single-character escapes). *)
Definition json_escape_unit (c : N) : t :=
  (if c =? 8 then [92; 98]            (* \b *)
   else if c =? 9 then [92; 116]      (* \t *)
   else if c =? 10 then [92; 110]     (* \n *)
   else if c =? 12 then [92; 102]     (* \f *)
   else if c =? 13 then [92; 114]     (* \r *)
   else if c =? 34 then [92; 34]      (* quotation mark *)
   else if c =? 92 then [92; 92]      (* reverse solidus *)
   else if c <? 32 then unicode_escape c
   else if is_leading_surrogate c || is_trailing_surrogate c
        then unicode_escape c
   else [c])%N.

(** Body of [QuoteJSONString]: a well-formed surrogate pair is copied,
    every other code point goes through [json_escape_unit]. *)
Fixpoint json_escape (s : t) : t :=
  match s with
  | [] => []
  | c :: r =>
      match r with
      | d :: r' =>
          if is_leading_surrogate c && is_trailing_surrogate d
          then c :: d :: json_escape r'
          else json_escape_unit c ++ json_escape r
      | [] => json_escape_unit c
      end
  end.

Definition QuoteJSONString (s : t) : t :=
  [34%N] ++ json_escape s ++ [34%N].

End JsString.

Definition jsstring : Type := JsString.t.
Definition js : string -> jsstring := JsString.of_ascii.

(* ------------------------------------------------------------------ *)
(** * [JSON.stringify] on the objects the code builds *)

Module JSON.

(** An object literal whose property values are of type
    [string | undefined], in property creation order (none of the keys
    used is an array index, so this is also the enumeration order). *)
Definition object : Type := list (jsstring * option jsstring).

(** [SerializeJSONProperty] for each own property: a property whose value
    is [undefined] is left out. *)
Fixpoint members (o : object) : list jsstring :=
  match o with
  | [] => []
  | (_, None) :: r => members r
  | (k, Some v) :: r =>
      (JsString.QuoteJSONString k ++ [58%N] ++ JsString.QuoteJSONString v)
        :: members r
  end.

Fixpoint join_comma (parts : list jsstring) : jsstring :=
  match parts with
  | [] => []
  | p :: r =>
      match r with
      | [] => p
      | _ :: _ => p ++ [44%N] ++ join_comma r
      end
  end.

Definition stringify (o : object) : jsstring :=
  [123%N] ++ join_comma (members o) ++ [125%N].

End JSON.

(* ------------------------------------------------------------------ *)
(** * Array helpers *)

Module JsArray.

Section Generic.
Variable A : Type.

(** [Array.prototype.findLastIndex]: the greatest index whose element
    satisfies [p], or [-1]; [i] is the index of the head of [l]. *)
Fixpoint findLastIndex_from (p : A -> bool) (l : list A) (i : Z) : Z :=
  match l with
  | [] => (-1)%Z
  | x :: r =>
      let k := findLastIndex_from p r (i + 1) in
      if (k =? -1)%Z then (if p x then i else (-1)%Z) else k
  end.

Definition findLastIndex (p : A -> bool) (l : list A) : Z :=
  findLastIndex_from p l 0.

(** [Array.prototype.slice(start, end)], with the relative indices
    clamped as ECMAScript does. *)
Definition slice (start finish : Z) (l : list A) : list A :=
  let len := Z.of_nat (length l) in
  let clamp k := if (k <? 0)%Z then Z.max (len + k) 0 else Z.min k len in
  let s := clamp start in
  let e := clamp finish in
  firstn (Z.to_nat (e - s)) (skipn (Z.to_nat s) l).

(** [l[i]], [None] standing for [undefined]. *)
Definition index (l : list A) (i : Z) : option A :=
  if (i <? 0)%Z then None else nth_error l (Z.to_nat i).
End Generic.

Arguments findLastIndex_from {A} p l i.
Arguments findLastIndex {A} p l.
Arguments slice {A} start finish l.
Arguments index {A} l i.

End JsArray.

(* ------------------------------------------------------------------ *)
(** * Messages and the stream context *)

(** A value of type [T | null | undefined]. *)
Inductive Nullable (A : Type) : Type :=
| undefined : Nullable A
| null : Nullable A
| defined : A -> Nullable A.
Arguments undefined {A}.
Arguments null {A}.
Arguments defined {A} _.

Module Message.

(** The [type] discriminant of the SDK's [Message] union. *)
Inductive kind : Type := human | ai | tool | system | function | remove.

Definition kind_eqb (a b : kind) : bool :=
  match a, b with
  | human, human | ai, ai | tool, tool
  | system, system | function, function | remove, remove => true
  | _, _ => false
  end.

Record tool_call : Type := mkToolCall {
  tc_name : jsstring;
  tc_id : jsstring
}.

(** The fields of a message this code and its reconciliation helper look
    at.  A message built by a handler has [id], [type] and [content] only:
    no tool calls and no [tool_call_id]. *)
Record t : Type := mk {
  id : option jsstring;
  type : kind;
  content : jsstring;
  tool_calls : list tool_call;
  tool_call_id : option jsstring
}.

(** The object literal [{ id, type: "human", content }]. *)
Definition human_literal (i c : jsstring) : t :=
  {| id := Some i; type := human; content := c;
     tool_calls := []; tool_call_id := None |}.

End Message.

(** Modelled from the spec: the SDK's [Checkpoint] type is not declared in
    the sources; the glossary calls it an opaque backend-provided marker
    identifying a point in the conversation history. *)
Inductive Checkpoint : Type := CheckpointMarker (marker : jsstring).

(** The graph state [stream.submit]'s optimistic projection works on: its
    [messages] key (which may be missing) and the other keys, kept as they
    are by the object spread. *)
Module Values.
Record t : Type := mk {
  messages : option (list Message.t);
  rest : list (jsstring * jsstring)
}.

(** [prev?.messages]. *)
Definition messages_of (prev : option t) : option (list Message.t) :=
  match prev with
  | None => None
  | Some v => messages v
  end.

(** [prev?.messages ?? []]. *)
Definition messages_or_empty (prev : option t) : list Message.t :=
  match messages_of prev with
  | Some ms => ms
  | None => []
  end.

(** [{ ...prev, messages: ms }]: spreading [undefined] adds no key. *)
Definition spread_with_messages (prev : option t) (ms : list Message.t) : t :=
  {| messages := Some ms;
     rest := match prev with None => [] | Some v => rest v end |}.
End Values.

Module Submit.
(** Second argument of [stream.submit]; [checkpoint] is [None] when the
    options object has no such key. *)
Record options : Type := mkOptions {
  checkpoint : option (Nullable Checkpoint);
  streamMode : list jsstring;
  optimisticValues : option Values.t -> Values.t
}.

(** One call [stream.submit(values, options)]; [values] is [None] for
    [undefined] and [Some ms] for [{ messages: ms }]. *)
Record call : Type := mkCall {
  values : option (list Message.t);
  opts : options
}.
End Submit.

Module Stream.
Record error_value : Type := mkError {
  message : option jsstring
}.

(** What the component reads from [useStreamContext()].  [messages] is
    [None] for the absent list that [messages?.length] guards against;
    [error] is [None] when [stream.error] is falsy. *)
Record t : Type := mk {
  messages : option (list Message.t);
  isLoading : bool;
  error : option error_value
}.
End Stream.

(* ------------------------------------------------------------------ *)
(** * The state of the Thread view *)

(** A call to [toast.error(title, { description })]. *)
Record Toast : Type := mkToast {
  toast_title : jsstring;
  toast_description : option jsstring
}.

(** [useState] and [useQueryParam] cells of [Thread]. *)
Record ThreadState : Type := mkThreadState {
  threadId : option jsstring;
  input : jsstring;
  firstTokenReceived : bool;
  llmVizModel : option jsstring;
  llmVizLayer : option jsstring;
  llmVizHead : option jsstring;
  llmVizControlText : jsstring;
  selectedToolId : option jsstring
}.

(** [useRef] cells of [Thread]. *)
Record Refs : Type := mkRefs {
  lastError : option jsstring;
  prevMessageLength : Z
}.

(** Calls made to the collaborators, oldest first, and the number of
    identifiers drawn from [uuidv4] so far. *)
Record Log : Type := mkLog {
  toasts : list Toast;
  consoleErrors : list jsstring;
  submitted : list Submit.call;
  uuidDrawn : nat
}.

Record World : Type := mkWorld {
  state : ThreadState;
  refs : Refs;
  stream : Stream.t;
  log : Log
}.

(** The outcome of running a handler or an effect. *)
Inductive Exception : Type := TypeError.

Inductive Completion (A : Type) : Type :=
| Normal : A -> Completion A
| Throw : Exception -> Completion A.
Arguments Normal {A} _.
Arguments Throw {A} _.

Definition bind {A B : Type} (c : Completion A) (k : A -> Completion B)
  : Completion B :=
  match c with
  | Normal a => k a
  | Throw e => Throw e
  end.

Notation "x <- c ;; k" := (bind c (fun x => k))
  (at level 61, c at next level, right associativity).

(** ** Setters and collaborator calls *)

Definition setFirstTokenReceived (b : bool) (w : World) : World :=
  let s := state w in
  {| state := {| threadId := threadId s; input := input s;
                 firstTokenReceived := b;
                 llmVizModel := llmVizModel s; llmVizLayer := llmVizLayer s;
                 llmVizHead := llmVizHead s;
                 llmVizControlText := llmVizControlText s;
                 selectedToolId := selectedToolId s |};
     refs := refs w; stream := stream w; log := log w |}.

Definition setInput (v : jsstring) (w : World) : World :=
  let s := state w in
  {| state := {| threadId := threadId s; input := v;
                 firstTokenReceived := firstTokenReceived s;
                 llmVizModel := llmVizModel s; llmVizLayer := llmVizLayer s;
                 llmVizHead := llmVizHead s;
                 llmVizControlText := llmVizControlText s;
                 selectedToolId := selectedToolId s |};
     refs := refs w; stream := stream w; log := log w |}.

Definition set_lastError (v : option jsstring) (w : World) : World :=
  {| state := state w;
     refs := {| lastError := v;
                prevMessageLength := prevMessageLength (refs w) |};
     stream := stream w; log := log w |}.

Definition set_prevMessageLength (v : Z) (w : World) : World :=
  {| state := state w;
     refs := {| lastError := lastError (refs w); prevMessageLength := v |};
     stream := stream w; log := log w |}.

Definition toast_error (t : Toast) (w : World) : World :=
  let l := log w in
  {| state := state w; refs := refs w; stream := stream w;
     log := {| toasts := toasts l ++ [t]; consoleErrors := consoleErrors l;
               submitted := submitted l; uuidDrawn := uuidDrawn l |} |}.

Definition console_error (m : jsstring) (w : World) : World :=
  let l := log w in
  {| state := state w; refs := refs w; stream := stream w;
     log := {| toasts := toasts l; consoleErrors := consoleErrors l ++ [m];
               submitted := submitted l; uuidDrawn := uuidDrawn l |} |}.

Definition stream_submit (c : Submit.call) (w : World) : World :=
  let l := log w in
  {| state := state w; refs := refs w; stream := stream w;
     log := {| toasts := toasts l; consoleErrors := consoleErrors l;
               submitted := submitted l ++ [c]; uuidDrawn := uuidDrawn l |} |}.

(** The stream context as the next render delivers it. *)
Definition with_stream (s : Stream.t) (w : World) : World :=
  {| state := state w; refs := refs w; stream := s; log := log w |}.

(* ------------------------------------------------------------------ *)
(** * Handlers and effects *)

(** Value props of [LLMVizTool] ([LLMVizToolProps] without the setters). *)
Record LLMVizToolProps : Type := mkProps {
  props_stream : Stream.t;
  parentIsLoading : bool;
  selectedModel : option jsstring;
  selectedLayer : option jsstring;
  selectedHead : option jsstring;
  controlText : jsstring
}.

(** The props [Thread] passes when it renders the visualization tool. *)
Definition LLMVizTool_props (w : World) : LLMVizToolProps :=
  {| props_stream := stream w;
     parentIsLoading := Stream.isLoading (stream w);
     selectedModel := llmVizModel (state w);
     selectedLayer := llmVizLayer (state w);
     selectedHead := llmVizHead (state w);
     controlText := llmVizControlText (state w) |}.

Section Handlers.

(** The reconciliation helper of [@/lib/ensure-tool-responses], applied by
    the handlers to whatever [stream.messages] holds. *)
Variable ensureToolCallsHaveResponses :
  option (list Message.t) -> list Message.t.

(** The identifier the [n]-th call of [uuidv4()] yields. *)
Variable uuid_source : nat -> jsstring.

Definition uuidv4 (w : World) : jsstring * World :=
  let l := log w in
  (uuid_source (uuidDrawn l),
   {| state := state w; refs := refs w; stream := stream w;
      log := {| toasts := toasts l; consoleErrors := consoleErrors l;
                submitted := submitted l;
                uuidDrawn := S (uuidDrawn l) |} |}).

(** [handleSubmit] of [Thread].  [e.preventDefault()] touches nothing that
    is modelled. *)
Definition handleSubmit (w : World) : Completion World :=
  if negb (JsString.truthy (JsString.trim (input (state w))))
     || Stream.isLoading (stream w)
  then Normal w
  else
    let w1 := setFirstTokenReceived false w in
    let (fresh, w2) := uuidv4 w1 in
    let newHumanMessage :=
      Message.human_literal fresh (input (state w)) in
    let toolMessages :=
      ensureToolCallsHaveResponses (Stream.messages (stream w)) in
    let w3 :=
      stream_submit
        {| Submit.values := Some (toolMessages ++ [newHumanMessage]);
           Submit.opts :=
             {| Submit.checkpoint := None;
                Submit.streamMode := [js "values"];
                Submit.optimisticValues := fun prev =>
                  Values.spread_with_messages prev
                    (Values.messages_or_empty prev
                       ++ toolMessages ++ [newHumanMessage]) |} |}
        w2 in
    Normal (setInput [] w3).

Definition missing_fields_log : jsstring :=
  js "LLMVizTool: Missing required fields for submission.".

Definition missing_fields_toast : Toast :=
  {| toast_title :=
       js "Please fill in all fields for the LLM Visualization tool.";
     toast_description := None |}.

(** The object handed to [JSON.stringify] by [handleControlSubmit]. *)
Definition visualization_request (p : LLMVizToolProps) : JSON.object :=
  [ (js "tool", Some (js "llm_visualization"));
    (js "model", selectedModel p);
    (js "layer", selectedLayer p);
    (js "head", selectedHead p);
    (js "text", Some (controlText p)) ].

(** [handleControlSubmit] of [LLMVizTool]; the copy inside the Thread
    source and the one in [tools/llm-visualizer.tsx] are the same text. *)
Definition handleControlSubmit (p : LLMVizToolProps) (w : World)
  : Completion World :=
  if parentIsLoading p then Normal w
  else
    let w1 := setFirstTokenReceived false w in
    if negb (JsString.truthy_opt (selectedModel p))
       || negb (JsString.truthy_opt (selectedLayer p))
       || negb (JsString.truthy_opt (selectedHead p))
       || negb (JsString.truthy (JsString.trim (controlText p)))
    then
      let w2 := console_error missing_fields_log w1 in
      Normal (toast_error missing_fields_toast w2)
    else
      let messageContent := JSON.stringify (visualization_request p) in
      let (fresh, w2) := uuidv4 w1 in
      let newHumanMessage := Message.human_literal fresh messageContent in
      let toolMessages :=
        ensureToolCallsHaveResponses (Stream.messages (props_stream p)) in
      Normal
        (stream_submit
           {| Submit.values := Some (toolMessages ++ [newHumanMessage]);
              Submit.opts :=
                {| Submit.checkpoint := None;
                   Submit.streamMode := [js "values"];
                   Submit.optimisticValues := fun prev =>
                     Values.spread_with_messages prev
                       (Values.messages_or_empty prev
                          ++ toolMessages ++ [newHumanMessage]) |} |}
           w2).

(** The handler as wired by [Thread]. *)
Definition Thread_handleControlSubmit (w : World) : Completion World :=
  handleControlSubmit (LLMVizTool_props w) w.

Definition is_ai (m : Message.t) : bool :=
  Message.kind_eqb (Message.type m) Message.ai.

(** The [optimisticValues] callback of [handleRegenerate]:
    [prev?.messages?.slice(0, lastAiMessageIndex) ?? []]. *)
Definition optimistic_truncate (lastAiMessageIndex : Z)
    (prev : option Values.t) : Values.t :=
  Values.spread_with_messages prev
    (match Values.messages_of prev with
     | Some ms => JsArray.slice 0 lastAiMessageIndex ms
     | None => []
     end).

(** [handleRegenerate] of [Thread]. *)
Definition handleRegenerate (parentCheckpoint : Nullable Checkpoint)
    (w : World) : Completion World :=
  match Stream.messages (stream w) with
  | None => Normal w
  | Some messages =>
      if (Z.of_nat (length messages) =? 0)%Z then Normal w
      else
        let lastAiMessageIndex := JsArray.findLastIndex is_ai messages in
        if (lastAiMessageIndex =? -1)%Z then Normal w
        else
          let w1 :=
            set_prevMessageLength
              (Z.max 0 (prevMessageLength (refs w) - 1)) w in
          let w2 := setFirstTokenReceived false w1 in
          Normal
            (stream_submit
               {| Submit.values := None;
                  Submit.opts :=
                    {| Submit.checkpoint := Some parentCheckpoint;
                       Submit.streamMode := [js "values"];
                       Submit.optimisticValues :=
                         optimistic_truncate lastAiMessageIndex |} |}
               w2)
  end.

Definition error_toast (message : option jsstring) : Toast :=
  {| toast_title := js "An error occurred. Please try again.";
     toast_description := message |}.

(** [lastError.current === message] on values of type
    [string | undefined]. *)
Definition strict_equal (a b : option jsstring) : bool :=
  match a, b with
  | None, None => true
  | Some x, Some y => JsString.eqb x y
  | _, _ => false
  end.

(** The effect on [[stream.error]].  Nothing inside its [try] block can
    throw in this model, so the [catch] branch is never taken. *)
Definition errorEffect (w : World) : Completion World :=
  match Stream.error (stream w) with
  | None => Normal (set_lastError None w)
  | Some e =>
      let message := Stream.message e in
      if negb (JsString.truthy_opt message)
         || strict_equal (lastError (refs w)) message
      then Normal w
      else
        let w1 := set_lastError message w in
        Normal (toast_error (error_toast message) w1)
  end.

(** The effect on [[messages]].  Reading [.length] of an absent list
    throws. *)
Definition firstTokenEffect (w : World) : Completion World :=
  match Stream.messages (stream w) with
  | None => Throw TypeError
  | Some messages =>
      let len := Z.of_nat (length messages) in
      w1 <-
        (if negb (len =? prevMessageLength (refs w))%Z
            && negb (len =? 0)%Z
         then
           match JsArray.index messages (len - 1) with
           | None => Throw TypeError
           | Some m =>
               if is_ai m then Normal (setFirstTokenReceived true w)
               else Normal w
           end
         else Normal w) ;;
      Normal (set_prevMessageLength len w1)
  end.

(** [const chatStarted = !!threadId || !!messages.length]. *)
Definition chatStarted (w : World) : Completion bool :=
  if JsString.truthy_opt (threadId (state w)) then Normal true
  else
    match Stream.messages (stream w) with
    | None => Throw TypeError
    | Some messages => Normal (negb (Z.of_nat (length messages) =? 0)%Z)
    end.

(** A sequence of stream error updates: each update installs the new
    value of [stream.error] and the effect runs on it. *)
Definition error_update (e : option Stream.error_value) (w : World)
  : Completion World :=
  let s := stream w in
  errorEffect
    (with_stream {| Stream.messages := Stream.messages s;
                    Stream.isLoading := Stream.isLoading s;
                    Stream.error := e |} w).

Fixpoint error_updates (es : list (option Stream.error_value)) (w : World)
  : Completion World :=
  match es with
  | [] => Normal w
  | e :: r => w1 <- error_update e w ;; error_updates r w1
  end.

End Handlers.

(* ------------------------------------------------------------------ *)
(** * Notions the specification uses *)

(** The tool calls a message makes: only an assistant message carries
    any. *)
Definition calls_of (m : Message.t) : list Message.tool_call :=
  if is_ai m then Message.tool_calls m else [].

(** [m] is a response to the tool call [tc]: a tool message whose
    [tool_call_id] is the identifier of the call. *)
Definition responds_to (tc : Message.tool_call) (m : Message.t) : bool :=
  Message.kind_eqb (Message.type m) Message.tool
  && strict_equal (Message.tool_call_id m) (Some (Message.tc_id tc)).

(** No tool call of the list lacks a matching response further down the
    list. *)
Fixpoint all_tool_calls_answered (ms : list Message.t) : bool :=
  match ms with
  | [] => true
  | m :: r =>
      forallb (fun tc => existsb (responds_to tc) r) (calls_of m)
      && all_tool_calls_answered r
  end.

(** Every list handed to the backend so far has all its tool calls
    answered. *)
Definition backend_never_sees_unanswered_call (w : World) : Prop :=
  Forall (fun c =>
            match Submit.values c with
            | Some ms => all_tool_calls_answered ms = true
            | None => True
            end)
         (submitted (log w)).

(** An error update that carries a non-empty message, or clears the
    error. *)
Definition has_message (e : option Stream.error_value) : bool :=
  match e with
  | None => true
  | Some v => JsString.truthy_opt (Stream.message v)
  end.

Definition message_of (e : option Stream.error_value) : option jsstring :=
  match e with
  | None => None
  | Some v => Stream.message v
  end.

(** The messages of the updates that differ from the update just before
    them ([before] is the message in force when the sequence starts); a
    cleared error counts as an update without message. *)
Fixpoint new_messages (before : option jsstring)
    (es : list (option Stream.error_value)) : list (option jsstring) :=
  match es with
  | [] => []
  | e :: r =>
      (match e with
       | Some v =>
           if strict_equal before (Stream.message v) then []
           else [Stream.message v]
       | None => []
       end) ++ new_messages (message_of e) r
  end.

(** The message last shown after one update, by the rules of error
    surfacing: clearing the error forgets it, an error whose message is
    missing or empty leaves it as it is, an error with a non-empty message
    makes that message the one last shown. *)
Definition shown_after_update (shown : option jsstring)
    (e : option Stream.error_value) : option jsstring :=
  match e with
  | None => None
  | Some v =>
      if JsString.truthy_opt (Stream.message v) then Stream.message v
      else shown
  end.

(** What one update notifies: its message, when that is non-empty and not
    the one last shown. *)
Definition notified_by_update (shown : option jsstring)
    (e : option Stream.error_value) : list (option jsstring) :=
  match e with
  | None => []
  | Some v =>
      if JsString.truthy_opt (Stream.message v)
         && negb (strict_equal shown (Stream.message v))
      then [Stream.message v]
      else []
  end.

Fixpoint notifications (shown : option jsstring)
    (es : list (option Stream.error_value)) : list (option jsstring) :=
  match es with
  | [] => []
  | e :: r =>
      notified_by_update shown e
      ++ notifications (shown_after_update shown e) r
  end.

Definition shown_after (shown : option jsstring)
    (es : list (option Stream.error_value)) : option jsstring :=
  fold_left shown_after_update es shown.

(** The payload of the visualization tool as the specification spells it:
    [{"tool":"llm_visualization","model":<string>,"layer":<string>,
    "head":<string>,"text":<string>}], each [<string>] a JSON string
    literal. *)
Definition quoted (s : string) : jsstring := [34%N] ++ js s ++ [34%N].

Definition visualization_payload (model layer head text : jsstring)
  : jsstring :=
  js "{" ++ quoted "tool" ++ js ":" ++ quoted "llm_visualization"
  ++ js "," ++ quoted "model" ++ js ":" ++ JsString.QuoteJSONString model
  ++ js "," ++ quoted "layer" ++ js ":" ++ JsString.QuoteJSONString layer
  ++ js "," ++ quoted "head" ++ js ":" ++ JsString.QuoteJSONString head
  ++ js "," ++ quoted "text" ++ js ":" ++ JsString.QuoteJSONString text
  ++ js "}".

(** The validation of [handleControlSubmit] fails: a select is unset (or
    holds the empty string), or the text is empty after trimming. *)
Definition validation_fails (p : LLMVizToolProps) : Prop :=
  JsString.truthy_opt (selectedModel p) = false
  \/ JsString.truthy_opt (selectedLayer p) = false
  \/ JsString.truthy_opt (selectedHead p) = false
  \/ JsString.trim (controlText p) = [].

(* ------------------------------------------------------------------ *)
(** * Sample data *)

Module Sample.

(** The synthetic response to a tool call. *)
Definition placeholder (tc : Message.tool_call) : Message.t :=
  {| Message.id := Some (js "do-not-render-placeholder");
     Message.type := Message.tool;
     Message.content := js "Successfully handled tool call.";
     Message.tool_calls := [];
     Message.tool_call_id := Some (Message.tc_id tc) |}.

(** Modelled from the spec: the reconciliation helper
    [ensureToolCallsHaveResponses] is not among the sources; the
    specification says that, given the current message list, it returns a
    list with synthetic placeholder responses inserted for any tool call
    lacking one.  Used as the sample instance of the handlers' parameter. *)
Fixpoint reconcile (ms : list Message.t) : list Message.t :=
  match ms with
  | [] => []
  | m :: r =>
      m :: List.map placeholder
             (List.filter (fun tc => negb (existsb (responds_to tc) r))
                          (calls_of m))
        ++ reconcile r
  end.

Definition ensureToolCallsHaveResponses (ms : option (list Message.t))
  : list Message.t :=
  match ms with
  | Some l => reconcile l
  | None => []
  end.

(** A deterministic stand-in for the identifier generator. *)
Definition uuid_source (n : nat) : jsstring :=
  js "uuid-" ++ [N.of_nat (48 + n)].

Definition question : Message.t :=
  Message.human_literal (js "m1") (js "weather in Paris?").

Definition pending_call : Message.t :=
  {| Message.id := Some (js "m2");
     Message.type := Message.ai;
     Message.content := [];
     Message.tool_calls :=
       [ {| Message.tc_name := js "get_weather";
            Message.tc_id := js "call-1" |} ];
     Message.tool_call_id := None |}.

Definition answer : Message.t :=
  {| Message.id := Some (js "m3");
     Message.type := Message.ai;
     Message.content := js "It is sunny.";
     Message.tool_calls := [];
     Message.tool_call_id := None |}.

Definition initial_state : ThreadState :=
  {| threadId := None;
     input := [];
     firstTokenReceived := false;
     llmVizModel := Some (js "gpt2");
     llmVizLayer := Some (js "1");
     llmVizHead := Some (js "1");
     llmVizControlText := js "The quick brown fox.";
     selectedToolId := None |}.

Definition world (messages : option (list Message.t)) (loading : bool)
    (typed : jsstring) (first_token : bool) : World :=
  {| state := {| threadId := None;
                 input := typed;
                 firstTokenReceived := first_token;
                 llmVizModel := llmVizModel initial_state;
                 llmVizLayer := llmVizLayer initial_state;
                 llmVizHead := llmVizHead initial_state;
                 llmVizControlText := llmVizControlText initial_state;
                 selectedToolId := None |};
     refs := {| lastError := None; prevMessageLength := 0 |};
     stream := {| Stream.messages := messages;
                  Stream.isLoading := loading;
                  Stream.error := None |};
     log := {| toasts := []; consoleErrors := []; submitted := [];
               uuidDrawn := 0 |} |}.

Definition err (m : string) : option Stream.error_value :=
  Some {| Stream.message := Some (js m) |}.

(** A conversation with an answer, while a submission is in flight. *)
Definition loading_with_answer : World :=
  world (Some [question; answer]) true [] false.

(** The stream delivers no message list. *)
Definition absent_list : World := world None false [] false.

(** The stream delivers the empty list. *)
Definition empty_list : World := world (Some []) false [] false.

(** A first token has been received, nothing is in flight, and the model
    select of the visualization tool has been emptied. *)
Definition no_model_after_first_token : World :=
  {| state := {| threadId := None;
                 input := [];
                 firstTokenReceived := true;
                 llmVizModel := None;
                 llmVizLayer := Some (js "1");
                 llmVizHead := Some (js "1");
                 llmVizControlText := js "The quick brown fox.";
                 selectedToolId := Some (js "llm-visualization") |};
     refs := {| lastError := None; prevMessageLength := 2 |};
     stream := {| Stream.messages := Some [question; answer];
                  Stream.isLoading := false;
                  Stream.error := None |};
     log := {| toasts := []; consoleErrors := []; submitted := [];
               uuidDrawn := 0 |} |}.

(** A tool call is still unanswered; the user has typed a message. *)
Definition pending : World :=
  world (Some [question; pending_call]) false (js "never mind") false.

(** Only blanks have been typed. *)
Definition blank_input : World :=
  world (Some [question; answer]) false (js "   ") false.

Definition after (c : Completion World) (otherwise : World) : World :=
  match c with
  | Normal w => w
  | Throw _ => otherwise
  end.

(** A first token has been received in the conversation so far. *)
Definition after_first_token : World :=
  world (Some [question; answer]) false [] true.

End Sample.

(* ------------------------------------------------------------------ *)
(** * The rest of the view: controls, panels, transcript *)

(** ** Setters of the remaining state cells *)

Definition update_state (f : ThreadState -> ThreadState) (w : World) : World :=
  {| state := f (state w); refs := refs w; stream := stream w;
     log := log w |}.

Definition setLlmVizModel (v : option jsstring) : World -> World :=
  update_state (fun s =>
    {| threadId := threadId s; input := input s;
       firstTokenReceived := firstTokenReceived s;
       llmVizModel := v; llmVizLayer := llmVizLayer s;
       llmVizHead := llmVizHead s;
       llmVizControlText := llmVizControlText s;
       selectedToolId := selectedToolId s |}).

Definition setLlmVizLayer (v : option jsstring) : World -> World :=
  update_state (fun s =>
    {| threadId := threadId s; input := input s;
       firstTokenReceived := firstTokenReceived s;
       llmVizModel := llmVizModel s; llmVizLayer := v;
       llmVizHead := llmVizHead s;
       llmVizControlText := llmVizControlText s;
       selectedToolId := selectedToolId s |}).

Definition setLlmVizHead (v : option jsstring) : World -> World :=
  update_state (fun s =>
    {| threadId := threadId s; input := input s;
       firstTokenReceived := firstTokenReceived s;
       llmVizModel := llmVizModel s; llmVizLayer := llmVizLayer s;
       llmVizHead := v;
       llmVizControlText := llmVizControlText s;
       selectedToolId := selectedToolId s |}).

Definition setLlmVizControlText (v : jsstring) : World -> World :=
  update_state (fun s =>
    {| threadId := threadId s; input := input s;
       firstTokenReceived := firstTokenReceived s;
       llmVizModel := llmVizModel s; llmVizLayer := llmVizLayer s;
       llmVizHead := llmVizHead s;
       llmVizControlText := v;
       selectedToolId := selectedToolId s |}).

Definition setSelectedToolId (v : option jsstring) : World -> World :=
  update_state (fun s =>
    {| threadId := threadId s; input := input s;
       firstTokenReceived := firstTokenReceived s;
       llmVizModel := llmVizModel s; llmVizLayer := llmVizLayer s;
       llmVizHead := llmVizHead s;
       llmVizControlText := llmVizControlText s;
       selectedToolId := v |}).

Definition setThreadId (v : option jsstring) : World -> World :=
  update_state (fun s =>
    {| threadId := v; input := input s;
       firstTokenReceived := firstTokenReceived s;
       llmVizModel := llmVizModel s; llmVizLayer := llmVizLayer s;
       llmVizHead := llmVizHead s;
       llmVizControlText := llmVizControlText s;
       selectedToolId := selectedToolId s |}).

(** ** The option lists and the initial state *)

(** [String(n)] for a non-negative integer: its decimal digits. *)
Definition Number_toString (n : nat) : jsstring :=
  js (DecimalString.NilZero.string_of_uint (Nat.to_uint n)).

(** [Array.from({ length: n }, (_, i) => f(i))]. *)
Definition Array_from_length {A : Type} (n : nat) (f : nat -> A) : list A :=
  List.map f (seq 0 n).

Definition modelOptions : list jsstring :=
  [js "gpt2"; js "bert-base-uncased"; js "llama-7b"].

Definition layerOptions : list jsstring :=
  Array_from_length 12 (fun i => Number_toString (i + 1)).

Definition headOptions : list jsstring :=
  Array_from_length 12 (fun i => Number_toString (i + 1)).

(** [options.length > 0 ? options[0] : undefined]. *)
Definition first_option (options : list jsstring) : option jsstring :=
  if (0 <? Z.of_nat (length options))%Z then JsArray.index options 0
  else None.

(** The state cells and refs of [Thread] at mount; the thread id comes from
    the URL. *)
Definition initial_state (urlThreadId : option jsstring) : ThreadState :=
  {| threadId := urlThreadId;
     input := [];
     firstTokenReceived := false;
     llmVizModel := first_option modelOptions;
     llmVizLayer := first_option layerOptions;
     llmVizHead := first_option headOptions;
     llmVizControlText := js "The quick brown fox.";
     selectedToolId := None |}.

Definition initial_world (urlThreadId : option jsstring) (s : Stream.t)
  : World :=
  {| state := initial_state urlThreadId;
     refs := {| lastError := None; prevMessageLength := 0 |};
     stream := s;
     log := {| toasts := []; consoleErrors := []; submitted := [];
               uuidDrawn := 0 |} |}.

(** ** Buttons and keys *)

(** The [disabled] attribute of the tool's "Submit Request" button. *)
Definition submitRequestDisabled (p : LLMVizToolProps) : bool :=
  parentIsLoading p
  || negb (JsString.truthy (JsString.trim (controlText p)))
  || negb (JsString.truthy_opt (selectedModel p))
  || negb (JsString.truthy_opt (selectedLayer p))
  || negb (JsString.truthy_opt (selectedHead p)).

(** The button at the right of the composer: "Cancel" while loading, else
    "Send" with its [disabled] attribute. *)
Inductive ComposerButton : Type :=
| CancelButton
| SendButton (disabled : bool).

Definition composerButton (w : World) : ComposerButton :=
  if Stream.isLoading (stream w) then CancelButton
  else SendButton (Stream.isLoading (stream w)
                   || negb (JsString.truthy (JsString.trim (input (state w))))).

(** The fields of a keyboard event the composer looks at. *)
Record KeyboardEvent : Type := mkKeyboardEvent {
  key : jsstring;
  shiftKey : bool;
  metaKey : bool
}.

(** [onKeyDown] of the composer's text area. *)
Definition onKeyDown
    (ensureToolCallsHaveResponses : option (list Message.t) -> list Message.t)
    (uuid_source : nat -> jsstring)
    (e : KeyboardEvent) (w : World) : Completion World :=
  if JsString.eqb (key e) (js "Enter") && negb (shiftKey e)
     && negb (metaKey e)
  then handleSubmit ensureToolCallsHaveResponses uuid_source w
  else Normal w.

(** [isLoading && !firstTokenReceived && chatStarted]: whether the loading
    placeholder is rendered.  [&&] does not read [chatStarted], but the
    constant is computed before the markup is. *)
Definition showAssistantMessageLoading (w : World) : Completion bool :=
  started <- chatStarted w ;;
  Normal (Stream.isLoading (stream w)
          && negb (firstTokenReceived (state w)) && started).

(** ** The tools panel *)

Inductive ToolComponent : Type :=
| LLMVizTool
| TokenAnalyzerTool
| PromptExplorerTool.

(** A [ToolDefinition] without its icon. *)
Record ToolDefinition : Type := mkTool {
  tool_id : jsstring;
  tool_name : jsstring;
  tool_description : option jsstring;
  tool_component : ToolComponent
}.

Definition availableTools : list ToolDefinition :=
  [ {| tool_id := js "llm-visualization";
       tool_name := js "LLM Visualization";
       tool_description :=
         Some (js "Explore model layers and attention heads.");
       tool_component := LLMVizTool |};
    {| tool_id := js "token-analyzer";
       tool_name := js "Token Analyzer";
       tool_description := Some (js "See how text is tokenized.");
       tool_component := TokenAnalyzerTool |};
    {| tool_id := js "prompt-explorer";
       tool_name := js "Prompt Explorer";
       tool_description := Some (js "Experiment with different prompts.");
       tool_component := PromptExplorerTool |} ].

(** [availableTools.find(tool => tool.id === selectedToolId)]. *)
Definition SelectedToolDefinition (w : World) : option ToolDefinition :=
  List.find
    (fun tool => strict_equal (Some (tool_id tool))
                   (selectedToolId (state w)))
    availableTools.

(** The header of the panel: whether the back button is there, and the
    title. *)
Definition toolsPanelHeader (w : World) : bool * jsstring :=
  (JsString.truthy_opt (selectedToolId (state w)),
   match SelectedToolDefinition w with
   | Some d => tool_name d
   | None => js "Tools"
   end).

(** The body of the panel: the catalogue, the selected tool's component
    (with the lifted props for the visualization tool, without props
    otherwise), or the error line. *)
Inductive ToolsPanelBody : Type :=
| ToolList (tools : list ToolDefinition)
| ToolView (component : ToolComponent) (props : option LLMVizToolProps)
| ToolNotFound.

Definition toolsPanelBody (w : World) : ToolsPanelBody :=
  if negb (JsString.truthy_opt (selectedToolId (state w)))
  then ToolList availableTools
  else
    match SelectedToolDefinition w with
    | Some d =>
        if strict_equal (selectedToolId (state w))
             (Some (js "llm-visualization"))
        then ToolView (tool_component d) (Some (LLMVizTool_props w))
        else ToolView (tool_component d) None
    | None => ToolNotFound
    end.

(** ** The transcript *)

(** [String.prototype.startsWith]. *)
Fixpoint startsWith (s prefix : jsstring) : bool :=
  match prefix with
  | [] => true
  | c :: prefix' =>
      match s with
      | [] => false
      | d :: s' => (d =? c)%N && startsWith s' prefix'
      end
  end.

(** The string of a message's [type]. *)
Definition kind_name (k : Message.kind) : jsstring :=
  match k with
  | Message.human => js "human"
  | Message.ai => js "ai"
  | Message.tool => js "tool"
  | Message.system => js "system"
  | Message.function => js "function"
  | Message.remove => js "remove"
  end.

(** One rendered message: the component, its key and the message. *)
Inductive Bubble : Type :=
| HumanMessage (uniqueKey : jsstring) (m : Message.t) (loading : bool)
| AssistantMessage (uniqueKey : jsstring) (m : Message.t) (loading : bool)
    (hideToolCalls : bool).

Definition bubble_key (b : Bubble) : jsstring :=
  match b with
  | HumanMessage k _ _ => k
  | AssistantMessage k _ _ _ => k
  end.

Definition bubble_message (b : Bubble) : Message.t :=
  match b with
  | HumanMessage _ m _ => m
  | AssistantMessage _ m _ _ => m
  end.

Section Transcript.

(** The reserved prefix exported by [@/lib/ensure-tool-responses]. *)
Variable DO_NOT_RENDER_ID_PREFIX : jsstring.

(** What [Date.now()] returns when the message at a given index is
    rendered. *)
Variable Date_now : nat -> nat.

(** [!m.id?.startsWith(DO_NOT_RENDER_ID_PREFIX)]. *)
Definition is_rendered (m : Message.t) : bool :=
  negb (match Message.id m with
        | Some i => startsWith i DO_NOT_RENDER_ID_PREFIX
        | None => false
        end).

(** [`${message.type}-${index}-${Date.now()}`]. *)
Definition fallback_key (m : Message.t) (index : nat) : jsstring :=
  kind_name (Message.type m) ++ js "-" ++ Number_toString index
  ++ js "-" ++ Number_toString (Date_now index).

(** [message.id || fallback]. *)
Definition uniqueKey (m : Message.t) (index : nat) : jsstring :=
  if JsString.truthy_opt (Message.id m)
  then match Message.id m with Some i => i | None => [] end
  else fallback_key m index.

Definition render_message (loading hideToolCalls : bool)
    (m : Message.t) (index : nat) : Bubble :=
  if Message.kind_eqb (Message.type m) Message.human
  then HumanMessage (uniqueKey m index) m loading
  else AssistantMessage (uniqueKey m index) m loading hideToolCalls.

(** [Array.prototype.map] with the index; [i] is the index of the head. *)
Fixpoint map_with_index {A B : Type} (f : A -> nat -> B) (l : list A)
    (i : nat) : list B :=
  match l with
  | [] => []
  | x :: r => f x i :: map_with_index f r (S i)
  end.

(** The bubbles of the transcript; [hideToolCalls] is the query parameter,
    already defaulted to false. *)
Definition transcript (hideToolCalls : bool) (w : World)
  : Completion (list Bubble) :=
  match Stream.messages (stream w) with
  | None => Throw TypeError
  | Some messages =>
      Normal (map_with_index
                (render_message (Stream.isLoading (stream w)) hideToolCalls)
                (List.filter is_rendered messages) 0)
  end.

End Transcript.

(** ** Events *)

(** What can happen to the view: the user's actions on its controls, the
    stream delivering new values, and React running one of the two
    effects. *)
Inductive Event : Type :=
| TypeInput (v : jsstring)
| PressKey (e : KeyboardEvent)
| SubmitForm
| SelectTool (id : jsstring)
| BackToTools
| NewThread
| SelectModel (v : jsstring)
| SelectLayer (v : jsstring)
| SelectHead (v : jsstring)
| TypeControlText (v : jsstring)
| ClickSubmitRequest
| ClickRegenerate (parentCheckpoint : Nullable Checkpoint)
| StreamDelivers (s : Stream.t)
| RunErrorEffect
| RunFirstTokenEffect.

Section Events.

Variable ensureToolCallsHaveResponses :
  option (list Message.t) -> list Message.t.
Variable uuid_source : nat -> jsstring.

Definition dispatch (ev : Event) (w : World) : Completion World :=
  match ev with
  | TypeInput v => Normal (setInput v w)
  | PressKey e => onKeyDown ensureToolCallsHaveResponses uuid_source e w
  | SubmitForm => handleSubmit ensureToolCallsHaveResponses uuid_source w
  | SelectTool id => Normal (setSelectedToolId (Some id) w)
  | BackToTools => Normal (setSelectedToolId None w)
  | NewThread => Normal (setThreadId None w)
  | SelectModel v => Normal (setLlmVizModel (Some v) w)
  | SelectLayer v => Normal (setLlmVizLayer (Some v) w)
  | SelectHead v => Normal (setLlmVizHead (Some v) w)
  | TypeControlText v => Normal (setLlmVizControlText v w)
  | ClickSubmitRequest =>
      Thread_handleControlSubmit ensureToolCallsHaveResponses uuid_source w
  | ClickRegenerate cp => handleRegenerate cp w
  | StreamDelivers s => Normal (with_stream s w)
  | RunErrorEffect => errorEffect w
  | RunFirstTokenEffect => firstTokenEffect w
  end.

Fixpoint run (evs : list Event) (w : World) : Completion World :=
  match evs with
  | [] => Normal w
  | ev :: r => w1 <- dispatch ev w ;; run r w1
  end.

End Events.

(** The identifiers of the messages the handlers have built and sent. *)
Definition sent_message_ids (w : World) : list (option jsstring) :=
  flat_map (fun c =>
              match Submit.values c with
              | Some ms =>
                  match rev ms with
                  | m :: _ => [Message.id m]
                  | [] => []
                  end
              | None => []
              end)
           (submitted (log w)).

(** Events that edit one of the four lifted fields of the visualization
    tool. *)
Definition edits_tool_field (ev : Event) : bool :=
  match ev with
  | SelectModel _ | SelectLayer _ | SelectHead _ | TypeControlText _ => true
  | _ => false
  end.

(** The last message of the list is an assistant message
    ([messages[messages.length - 1].type === "ai"] on a non-empty list). *)
Definition last_is_ai (ms : list Message.t) : bool :=
  match JsArray.index ms (Z.of_nat (length ms) - 1) with
  | Some m => is_ai m
  | None => false
  end.

(** ** What an event can leave behind *)

(** The world after a handler built a message with the given content and
    submitted it. *)
Definition message_sent
    (ensure : option (list Message.t) -> list Message.t)
    (uuid : nat -> jsstring) (content : jsstring) (w : World) : World :=
  let toolMessages := ensure (Stream.messages (stream w)) in
  let newHumanMessage :=
    Message.human_literal (uuid (uuidDrawn (log w))) content in
  stream_submit
    {| Submit.values := Some (toolMessages ++ [newHumanMessage]);
       Submit.opts :=
         {| Submit.checkpoint := None;
            Submit.streamMode := [js "values"];
            Submit.optimisticValues := fun prev =>
              Values.spread_with_messages prev
                (Values.messages_or_empty prev
                   ++ toolMessages ++ [newHumanMessage]) |} |}
    (snd (uuidv4 uuid (setFirstTokenReceived false w))).

(** The world after the visualization tool refused a submission. *)
Definition validation_rejected (w : World) : World :=
  toast_error missing_fields_toast
    (console_error missing_fields_log (setFirstTokenReceived false w)).

(** The world after a regeneration from the assistant message at
    [lastAiMessageIndex]. *)
Definition regenerated (cp : Nullable Checkpoint) (lastAiMessageIndex : Z)
    (w : World) : World :=
  stream_submit
    {| Submit.values := None;
       Submit.opts :=
         {| Submit.checkpoint := Some cp;
            Submit.streamMode := [js "values"];
            Submit.optimisticValues :=
              optimistic_truncate lastAiMessageIndex |} |}
    (setFirstTokenReceived false
       (set_prevMessageLength
          (Z.max 0 (prevMessageLength (refs w) - 1)) w)).

(** The world after the error effect raised a notification. *)
Definition error_shown (m : jsstring) (w : World) : World :=
  toast_error (error_toast (Some m)) (set_lastError (Some m) w).

(** A notification the view can raise: the tool's validation message, or
    an error with a non-empty description. *)
Definition well_formed_toast (t : Toast) : Prop :=
  t = missing_fields_toast
  \/ exists m, m <> [] /\ t = error_toast (Some m).

(** The identifiers sent are the draws made so far, in order. *)
Definition ids_are_the_draws (uuid : nat -> jsstring) (w : World) : Prop :=
  sent_message_ids w
  = List.map (fun k => Some (uuid k)) (seq 0 (uuidDrawn (log w))).

(** A select only reports values of its option list. *)
Definition offered (ev : Event) : Prop :=
  match ev with
  | SelectModel v => In v modelOptions
  | SelectLayer v => In v layerOptions
  | SelectHead v => In v headOptions
  | _ => True
  end.

(** The three selects hold a non-empty value. *)
Definition selects_are_set (w : World) : Prop :=
  JsString.truthy_opt (llmVizModel (state w)) = true
  /\ JsString.truthy_opt (llmVizLayer (state w)) = true
  /\ JsString.truthy_opt (llmVizHead (state w)) = true.

(** ** Reading a JSON string literal back *)

(** Value of a hexadecimal digit. *)
Definition unhex (d : N) : option N :=
  (if (48 <=? d) && (d <=? 57) then Some (d - 48)
   else if (97 <=? d) && (d <=? 102) then Some (d - 87)
   else if (65 <=? d) && (d <=? 70) then Some (d - 55)
   else None)%N.

Definition hex4 (a b c d : N) : option N :=
  match unhex a, unhex b, unhex c, unhex d with
  | Some x, Some y, Some z, Some u =>
      Some (4096 * x + 256 * y + 16 * z + u)%N
  | _, _, _, _ => None
  end.

(** The character a two-character escape stands for. *)
Definition unescape_char (e : N) : option N :=
  (if e =? 98 then Some 8
   else if e =? 116 then Some 9
   else if e =? 110 then Some 10
   else if e =? 102 then Some 12
   else if e =? 114 then Some 13
   else if e =? 34 then Some 34
   else if e =? 92 then Some 92
   else if e =? 47 then Some 47
   else None)%N.

(** Reads the characters of a JSON string literal up to its closing
    quotation mark; returns the string denoted and what follows the
    literal. *)
Fixpoint read_string_body (s : jsstring) : option (jsstring * jsstring) :=
  match s with
  | [] => None
  | c :: r =>
      if (c =? 34)%N then Some ([], r)
      else if (c =? 92)%N then
        match r with
        | [] => None
        | e :: r1 =>
            if (e =? 117)%N then
              match r1 with
              | a :: b :: c' :: d :: r2 =>
                  match hex4 a b c' d, read_string_body r2 with
                  | Some v, Some (t, rest) => Some (v :: t, rest)
                  | _, _ => None
                  end
              | _ => None
              end
            else
              match unescape_char e, read_string_body r1 with
              | Some v, Some (t, rest) => Some (v :: t, rest)
              | _, _ => None
              end
        end
      else
        match read_string_body r with
        | Some (t, rest) => Some (c :: t, rest)
        | None => None
        end
  end.

Definition read_string (s : jsstring) : option (jsstring * jsstring) :=
  match s with
  | c :: r => if (c =? 34)%N then read_string_body r else None
  | [] => None
  end.

(** ** A sample session *)

Module Scenario.

Definition plain_enter : KeyboardEvent :=
  {| key := js "Enter"; shiftKey := false; metaKey := false |}.

Definition shift_enter : KeyboardEvent :=
  {| key := js "Enter"; shiftKey := true; metaKey := false |}.

(** The stream while the answer arrives, and once it is there. *)
Definition answering : Stream.t :=
  {| Stream.messages := Some [Sample.question; Sample.answer];
     Stream.isLoading := true;
     Stream.error := None |}.

Definition idle : Stream.t :=
  {| Stream.messages := Some [Sample.question; Sample.answer];
     Stream.isLoading := false;
     Stream.error := None |}.

Definition empty_stream : Stream.t :=
  {| Stream.messages := Some [];
     Stream.isLoading := false;
     Stream.error := None |}.

(** The user asks, the answer streams in, the user looks at another tool,
    comes back, submits the visualization form and regenerates. *)
Definition session : list Event :=
  [ TypeInput (js "weather in Paris?");
    SubmitForm;
    StreamDelivers answering;
    RunFirstTokenEffect;
    SelectTool (js "token-analyzer");
    BackToTools;
    SelectTool (js "llm-visualization");
    StreamDelivers idle;
    ClickSubmitRequest;
    ClickRegenerate null ].

(** The user picks other options and blanks the text. *)
Definition editing : list Event :=
  [ SelectModel (js "llama-7b");
    SelectLayer (js "12");
    SelectHead (js "7");
    TypeControlText (js "  ") ].

Definition start : World := initial_world None empty_stream.

Definition finish (evs : list Event) : World :=
  Sample.after
    (run Sample.ensureToolCallsHaveResponses Sample.uuid_source evs start)
    start.

Definition prefix : jsstring := js "do-not-render-".

Definition clock (index : nat) : nat := 1000 + index.

(** A transcript with a hidden message and two messages without id. *)
Definition hidden : Message.t :=
  {| Message.id := Some (js "do-not-render-7");
     Message.type := Message.tool;
     Message.content := js "Successfully handled tool call.";
     Message.tool_calls := [];
     Message.tool_call_id := Some (js "call-1") |}.

Definition anonymous (k : Message.kind) (c : string) : Message.t :=
  {| Message.id := None; Message.type := k; Message.content := js c;
     Message.tool_calls := []; Message.tool_call_id := None |}.

Definition mixed : World :=
  Sample.world
    (Some [anonymous Message.human "hi"; hidden;
           anonymous Message.ai "hello"; Sample.answer])
    false [] true.

End Scenario.

(* ------------------------------------------------------------------ *)
(** * Facts about strings and arrays *)

Lemma jsstring_eqb_eq (a b : jsstring) : JsString.eqb a b = true <-> a = b.
Proof.
  unfold JsString.eqb.
  destruct (list_eq_dec N.eq_dec a b); split; congruence.
Qed.

Lemma jsstring_eqb_refl (a : jsstring) : JsString.eqb a a = true.
Proof. now apply jsstring_eqb_eq. Qed.

Lemma strict_equal_eq (a b : option jsstring) :
  strict_equal a b = true <-> a = b.
Proof.
  destruct a as [x|], b as [y|]; simpl; try (split; congruence).
  rewrite jsstring_eqb_eq. split; congruence.
Qed.

Lemma strict_equal_neq (a b : option jsstring) :
  strict_equal a b = false <-> a <> b.
Proof.
  rewrite <- strict_equal_eq. destruct (strict_equal a b); split; congruence.
Qed.

Lemma truthy_false_iff (s : jsstring) : JsString.truthy s = false <-> s = [].
Proof. destruct s; simpl; split; congruence. Qed.

Lemma truthy_true_iff (s : jsstring) : JsString.truthy s = true <-> s <> [].
Proof. destruct s; simpl; split; congruence. Qed.

Lemma truthy_opt_false_iff (s : option jsstring) :
  JsString.truthy_opt s = false <-> s = None \/ s = Some [].
Proof.
  destruct s as [[|c r]|]; simpl; split; intros H; auto; try discriminate.
  destruct H as [H|H]; discriminate.
Qed.

(** [trimStart] leaves nothing exactly when the string is white space
    only. *)
Lemma trimStart_nil_iff (s : jsstring) :
  JsString.trimStart s = [] <-> forallb JsString.is_white_space s = true.
Proof.
  induction s as [|c r IH]; simpl.
  - tauto.
  - destruct (JsString.is_white_space c); simpl.
    + exact IH.
    + split; discriminate.
Qed.

(** What [trimStart] keeps is a suffix of the string that does not begin
    with white space. *)
Lemma trimStart_suffix (s : jsstring) :
  exists p, s = p ++ JsString.trimStart s
            /\ forallb JsString.is_white_space p = true.
Proof.
  induction s as [|c r (p & E & W)]; simpl.
  - exists []. auto.
  - destruct (JsString.is_white_space c) eqn:Hc.
    + exists (c :: p). simpl. rewrite Hc, W. split; [congruence | reflexivity].
    + exists []. auto.
Qed.

Lemma forallb_rev {A} (f : A -> bool) (l : list A) :
  forallb f (rev l) = forallb f l.
Proof.
  induction l as [|x l IH]; simpl; auto.
  rewrite forallb_app, IH. simpl. rewrite andb_true_r. apply andb_comm.
Qed.

Lemma trimEnd_nil_iff (s : jsstring) :
  JsString.trimEnd s = [] <-> forallb JsString.is_white_space s = true.
Proof.
  unfold JsString.trimEnd.
  rewrite <- (forallb_rev _ s), <- trimStart_nil_iff.
  split; intros H.
  - apply (f_equal (@rev N)) in H. now rewrite rev_involutive in H.
  - now rewrite H.
Qed.

(** [s.trim()] is the empty string exactly when [s] consists of white
    space only (in particular when it is empty). *)
Lemma trim_nil_iff (s : jsstring) :
  JsString.trim s = [] <-> forallb JsString.is_white_space s = true.
Proof.
  unfold JsString.trim. rewrite trimEnd_nil_iff.
  destruct (trimStart_suffix s) as (p & E & W).
  split; intros H.
  - rewrite E, forallb_app, W, H. reflexivity.
  - rewrite E, forallb_app in H. now apply andb_true_iff in H.
Qed.

(** ** [findLastIndex] *)

Lemma findLastIndex_from_none {A} (p : A -> bool) (l : list A) (i : Z) :
  (0 <= i)%Z ->
  (JsArray.findLastIndex_from p l i = -1)%Z <-> forallb (fun x => negb (p x)) l = true.
Proof.
  revert i. induction l as [|x r IH]; intros i Hi; simpl.
  - tauto.
  - specialize (IH (i + 1)%Z ltac:(lia)).
    destruct (JsArray.findLastIndex_from p r (i + 1) =? -1)%Z eqn:E.
    + apply Z.eqb_eq in E. apply IH in E. rewrite E, andb_true_r.
      destruct (p x); simpl; split; intros; try reflexivity; try lia;
        discriminate.
    + apply Z.eqb_neq in E.
      assert (forallb (fun x => negb (p x)) r = false) as F.
      { apply not_true_is_false. intros F. apply IH in F. contradiction. }
      rewrite F, andb_false_r. split; intros; [lia | discriminate].
Qed.

(** When some element satisfies [p], the index found splits the list
    around the last such element. *)
Lemma findLastIndex_from_some {A} (p : A -> bool) (l : list A) (i : Z) :
  (0 <= i)%Z ->
  existsb p l = true ->
  exists before x after,
    l = before ++ x :: after
    /\ p x = true
    /\ forallb (fun y => negb (p y)) after = true
    /\ JsArray.findLastIndex_from p l i = (i + Z.of_nat (length before))%Z.
Proof.
  revert i. induction l as [|x r IH]; intros i Hi Hex; simpl in *.
  - discriminate.
  - destruct (existsb p r) eqn:Er.
    + destruct (IH (i + 1)%Z ltac:(lia) eq_refl)
        as (b & y & a & E & Py & Na & Hk).
      exists (x :: b), y, a. rewrite Hk. simpl length.
      replace (i + 1 + Z.of_nat (length b) =? -1)%Z with false
        by (symmetry; apply Z.eqb_neq; lia).
      repeat split; auto; [now rewrite E | lia].
    + rewrite orb_false_r in Hex.
      assert (JsArray.findLastIndex_from p r (i + 1) = -1)%Z as K.
      { apply findLastIndex_from_none; [lia|].
        clear -Er. induction r as [|y r IH]; simpl in *; auto.
        apply orb_false_iff in Er as [-> Er]. simpl. auto. }
      rewrite K, Hex. simpl.
      exists [], x, r. simpl. repeat split; auto; try lia.
      apply findLastIndex_from_none in K; [exact K | lia].
Qed.

Lemma forallb_negb_existsb {A} (p : A -> bool) (l : list A) :
  forallb (fun x => negb (p x)) l = negb (existsb p l).
Proof.
  induction l as [|x l IH]; simpl; auto.
  rewrite IH, negb_orb. reflexivity.
Qed.

(** [slice(0, n)] on an index inside the array is the prefix of length
    [n]. *)
Lemma slice_prefix {A} (l : list A) (n : nat) :
  n <= length l ->
  JsArray.slice 0 (Z.of_nat n) l = firstn n l.
Proof.
  intros H. unfold JsArray.slice. simpl.
  replace (Z.of_nat n <? 0)%Z with false by (symmetry; apply Z.ltb_ge; lia).
  rewrite (Z.min_l (Z.of_nat n)) by lia.
  rewrite (Z.min_l 0) by lia.
  rewrite Z.sub_0_r, Nat2Z.id. reflexivity.
Qed.

Lemma firstn_length_app {A} (a b : list A) : firstn (length a) (a ++ b) = a.
Proof.
  induction a as [|x a IH]; simpl.
  - now destruct b.
  - now rewrite IH.
Qed.

(* ------------------------------------------------------------------ *)
(** * The visualization tool's submit handler *)

Section VisualizationTool.

Variable ensure : option (list Message.t) -> list Message.t.
Variable uuid : nat -> jsstring.

(** The guard of [handleControlSubmit] is true exactly when the
    validation fails. *)
Lemma validation_guard (p : LLMVizToolProps) :
  negb (JsString.truthy_opt (selectedModel p))
  || negb (JsString.truthy_opt (selectedLayer p))
  || negb (JsString.truthy_opt (selectedHead p))
  || negb (JsString.truthy (JsString.trim (controlText p))) = true
  <-> validation_fails p.
Proof.
  unfold validation_fails.
  rewrite !orb_true_iff, !negb_true_iff, truthy_false_iff. tauto.
Qed.

(** An unset select fails the validation. *)
Lemma unset_field_fails_validation (p : LLMVizToolProps) :
  selectedModel p = None \/ selectedLayer p = None \/ selectedHead p = None ->
  validation_fails p.
Proof.
  unfold validation_fails. rewrite !truthy_opt_false_iff. tauto.
Qed.

(** A text of white space only fails the validation. *)
Lemma blank_text_fails_validation (p : LLMVizToolProps) :
  forallb JsString.is_white_space (controlText p) = true ->
  validation_fails p.
Proof.
  intros H. unfold validation_fails. rewrite trim_nil_iff. tauto.
Qed.

(** What the handler does when the validation fails and nothing is in
    flight. *)
Lemma handleControlSubmit_invalid (p : LLMVizToolProps) (w : World) :
  parentIsLoading p = false ->
  validation_fails p ->
  handleControlSubmit ensure uuid p w
  = Normal (toast_error missing_fields_toast
              (console_error missing_fields_log
                 (setFirstTokenReceived false w))).
Proof.
  intros L V. unfold handleControlSubmit. rewrite L.
  apply validation_guard in V. rewrite V. reflexivity.
Qed.

(** What the handler does when the validation passes and nothing is in
    flight. *)
Lemma handleControlSubmit_valid (p : LLMVizToolProps) (w : World) :
  parentIsLoading p = false ->
  ~ validation_fails p ->
  let toolMessages := ensure (Stream.messages (props_stream p)) in
  let newHumanMessage :=
    Message.human_literal (uuid (uuidDrawn (log w)))
      (JSON.stringify (visualization_request p)) in
  handleControlSubmit ensure uuid p w
  = Normal
      (stream_submit
         {| Submit.values := Some (toolMessages ++ [newHumanMessage]);
            Submit.opts :=
              {| Submit.checkpoint := None;
                 Submit.streamMode := [js "values"];
                 Submit.optimisticValues := fun prev =>
                   Values.spread_with_messages prev
                     (Values.messages_or_empty prev
                        ++ toolMessages ++ [newHumanMessage]) |} |}
         (snd (uuidv4 uuid (setFirstTokenReceived false w)))).
Proof.
  intros L V. unfold handleControlSubmit. rewrite L.
  rewrite <- validation_guard in V. apply not_true_is_false in V.
  rewrite V. reflexivity.
Qed.

(** C10. While a submission is in flight ([parentIsLoading] true) the
    visualization tool's submit handler returns at once: it completes
    normally with the world untouched, so no notification is shown,
    [stream.submit] is not called, and the first-token flag and the four
    lifted fields keep their values. *)
Theorem handleControlSubmit_loading_is_noop
    (p : LLMVizToolProps) (w : World) :
  parentIsLoading p = true ->
  exists w',
    handleControlSubmit ensure uuid p w = Normal w'
    /\ w' = w
    /\ toasts (log w') = toasts (log w)
    /\ consoleErrors (log w') = consoleErrors (log w)
    /\ submitted (log w') = submitted (log w)
    /\ firstTokenReceived (state w') = firstTokenReceived (state w)
    /\ llmVizModel (state w') = llmVizModel (state w)
    /\ llmVizLayer (state w') = llmVizLayer (state w)
    /\ llmVizHead (state w') = llmVizHead (state w)
    /\ llmVizControlText (state w') = llmVizControlText (state w).
Proof.
  intros L. exists w. unfold handleControlSubmit. rewrite L.
  repeat split.
Qed.

(** C2. While nothing is in flight, if the model, the layer or the head
    is unset (or the empty string), or the text is empty after trimming,
    the handler completes normally (nothing is thrown to the caller),
    shows exactly one error notification, and does not call
    [stream.submit]. *)
Theorem handleControlSubmit_invalid_notifies
    (p : LLMVizToolProps) (w : World) :
  parentIsLoading p = false ->
  validation_fails p ->
  exists w',
    handleControlSubmit ensure uuid p w = Normal w'
    /\ toasts (log w') = toasts (log w) ++ [missing_fields_toast]
    /\ submitted (log w') = submitted (log w).
Proof.
  intros L V. eexists. split.
  - apply handleControlSubmit_invalid; assumption.
  - split; reflexivity.
Qed.

(** C7, as the code has it. When the validation fails while nothing is in
    flight, the submission is aborted: [stream.submit] is not called, the
    lifted fields, the composer input, the query state, the refs and the
    stream are unchanged, and no identifier is drawn; the first-token
    flag, which the handler resets before it validates, is false
    afterwards. *)
Theorem handleControlSubmit_invalid_frame
    (p : LLMVizToolProps) (w : World) :
  parentIsLoading p = false ->
  validation_fails p ->
  exists w',
    handleControlSubmit ensure uuid p w = Normal w'
    /\ submitted (log w') = submitted (log w)
    /\ uuidDrawn (log w') = uuidDrawn (log w)
    /\ llmVizModel (state w') = llmVizModel (state w)
    /\ llmVizLayer (state w') = llmVizLayer (state w)
    /\ llmVizHead (state w') = llmVizHead (state w)
    /\ llmVizControlText (state w') = llmVizControlText (state w)
    /\ input (state w') = input (state w)
    /\ threadId (state w') = threadId (state w)
    /\ selectedToolId (state w') = selectedToolId (state w)
    /\ refs w' = refs w
    /\ stream w' = stream w
    /\ firstTokenReceived (state w') = false.
Proof.
  intros L V. eexists. split.
  - apply handleControlSubmit_invalid; assumption.
  - repeat split.
Qed.

(** The serialisation of the request object is the payload of the
    specification. *)
Lemma stringify_request (model layer head text : jsstring) :
  JSON.stringify
    [ (js "tool", Some (js "llm_visualization"));
      (js "model", Some model);
      (js "layer", Some layer);
      (js "head", Some head);
      (js "text", Some text) ]
  = visualization_payload model layer head text.
Proof.
  unfold JSON.stringify, visualization_payload, quoted,
    JsString.QuoteJSONString.
  cbn. repeat (rewrite <- app_assoc; cbn). reflexivity.
Qed.

(** C8. On a successful submission of the visualization tool (nothing in
    flight, validation passed) exactly one list is submitted; its last
    element is the new human message, and the content of that message is
    [JSON.stringify] of the object with the keys [tool], [model],
    [layer], [head], [text] in this order, [tool] being the constant
    [llm_visualization] and the other four the current values of the
    fields: the payload the specification spells out. *)
Theorem handleControlSubmit_payload
    (p : LLMVizToolProps) (w : World) (model layer head : jsstring) :
  parentIsLoading p = false ->
  ~ validation_fails p ->
  selectedModel p = Some model ->
  selectedLayer p = Some layer ->
  selectedHead p = Some head ->
  exists w' c newHumanMessage,
    handleControlSubmit ensure uuid p w = Normal w'
    /\ submitted (log w') = submitted (log w) ++ [c]
    /\ Submit.values c
       = Some (ensure (Stream.messages (props_stream p))
                 ++ [newHumanMessage])
    /\ Message.type newHumanMessage = Message.human
    /\ Message.content newHumanMessage
       = JSON.stringify
           [ (js "tool", Some (js "llm_visualization"));
             (js "model", Some model);
             (js "layer", Some layer);
             (js "head", Some head);
             (js "text", Some (controlText p)) ]
    /\ Message.content newHumanMessage
       = visualization_payload model layer head (controlText p).
Proof.
  intros L V Hm Hl Hh.
  do 3 eexists. split.
  - apply handleControlSubmit_valid; assumption.
  - unfold visualization_request. rewrite Hm, Hl, Hh.
    repeat split. cbn [Message.content Message.human_literal].
    apply stringify_request.
Qed.

End VisualizationTool.

(* ------------------------------------------------------------------ *)
(** * The composer's submit handler *)

(** Appending a message that makes no tool call keeps every call
    answered. *)
Lemma all_tool_calls_answered_snoc (ms : list Message.t) (m : Message.t) :
  calls_of m = [] ->
  all_tool_calls_answered ms = true ->
  all_tool_calls_answered (ms ++ [m]) = true.
Proof.
  intros Hm. induction ms as [|x r IH]; simpl; intros H.
  - now rewrite Hm.
  - apply andb_true_iff in H as [Hx Hr].
    rewrite (IH Hr), andb_true_r.
    rewrite forallb_forall in Hx |- *.
    intros tc Htc. rewrite existsb_app, (Hx tc Htc). reflexivity.
Qed.

Lemma backend_invariant_snoc (w w' : World) (c : Submit.call) :
  submitted (log w') = submitted (log w) ++ [c] ->
  match Submit.values c with
  | Some ms => all_tool_calls_answered ms = true
  | None => True
  end ->
  backend_never_sees_unanswered_call w ->
  backend_never_sees_unanswered_call w'.
Proof.
  unfold backend_never_sees_unanswered_call. intros E Hc Hw.
  rewrite E. apply Forall_app. split; [exact Hw | now constructor].
Qed.

Section Composer.

Variable ensure : option (list Message.t) -> list Message.t.
Variable uuid : nat -> jsstring.

Lemma handleSubmit_rejected (w : World) :
  JsString.trim (input (state w)) = []
  \/ Stream.isLoading (stream w) = true ->
  handleSubmit ensure uuid w = Normal w.
Proof.
  intros H. unfold handleSubmit.
  replace (negb (JsString.truthy (JsString.trim (input (state w))))
           || Stream.isLoading (stream w)) with true; [reflexivity|].
  symmetry. apply orb_true_iff.
  destruct H as [H|H]; [left | right; exact H].
  now rewrite H.
Qed.

(** Typing white space only never submits. *)
Lemma handleSubmit_blank_input (w : World) :
  forallb JsString.is_white_space (input (state w)) = true ->
  handleSubmit ensure uuid w = Normal w.
Proof.
  intros H. apply handleSubmit_rejected. left. now apply trim_nil_iff.
Qed.

Lemma handleSubmit_accepted (w : World) :
  JsString.trim (input (state w)) <> [] ->
  Stream.isLoading (stream w) = false ->
  let toolMessages := ensure (Stream.messages (stream w)) in
  let newHumanMessage :=
    Message.human_literal (uuid (uuidDrawn (log w))) (input (state w)) in
  handleSubmit ensure uuid w
  = Normal
      (setInput []
         (stream_submit
            {| Submit.values := Some (toolMessages ++ [newHumanMessage]);
               Submit.opts :=
                 {| Submit.checkpoint := None;
                    Submit.streamMode := [js "values"];
                    Submit.optimisticValues := fun prev =>
                      Values.spread_with_messages prev
                        (Values.messages_or_empty prev
                           ++ toolMessages ++ [newHumanMessage]) |} |}
            (snd (uuidv4 uuid (setFirstTokenReceived false w))))).
Proof.
  intros T L. unfold handleSubmit. rewrite L.
  apply truthy_true_iff in T. rewrite T. reflexivity.
Qed.

(** C3. [handleSubmit] does nothing when the input is empty after
    trimming or a submission is in flight: [stream.submit] is not called
    and the input field is unchanged. Otherwise it builds a message whose
    id is the identifier [uuidv4] yields at this call (the generator
    advances by one), whose type is human, whose content is the input, and
    which has no other field; it calls [stream.submit] once, with the
    reconciled current list followed by that message, the stream mode
    [values], no checkpoint, and an optimistic projection that maps a
    previous state to the same state with, as messages, its previous
    messages followed by the reconciled messages and the new one (a
    missing previous state or list counting as the empty list); it resets
    the first-token flag, clears the input field to the empty string and
    shows no notification. *)
Theorem handleSubmit_behaviour (w : World) :
  (JsString.trim (input (state w)) = []
   \/ Stream.isLoading (stream w) = true ->
   exists w',
     handleSubmit ensure uuid w = Normal w'
     /\ submitted (log w') = submitted (log w)
     /\ input (state w') = input (state w)
     /\ w' = w)
  /\
  (JsString.trim (input (state w)) <> [] ->
   Stream.isLoading (stream w) = false ->
   exists w' c newHumanMessage,
     handleSubmit ensure uuid w = Normal w'
     /\ submitted (log w') = submitted (log w) ++ [c]
     /\ Message.id newHumanMessage = Some (uuid (uuidDrawn (log w)))
     /\ Message.type newHumanMessage = Message.human
     /\ Message.content newHumanMessage = input (state w)
     /\ Message.tool_calls newHumanMessage = []
     /\ Message.tool_call_id newHumanMessage = None
     /\ uuidDrawn (log w') = S (uuidDrawn (log w))
     /\ Submit.values c
        = Some (ensure (Stream.messages (stream w)) ++ [newHumanMessage])
     /\ Submit.checkpoint (Submit.opts c) = None
     /\ Submit.streamMode (Submit.opts c) = [js "values"]
     /\ (forall previous others,
           Values.messages
             (Submit.optimisticValues (Submit.opts c)
                (Some {| Values.messages := Some previous;
                         Values.rest := others |}))
           = Some (previous ++ ensure (Stream.messages (stream w))
                     ++ [newHumanMessage]))
     /\ (forall others,
           Values.messages
             (Submit.optimisticValues (Submit.opts c)
                (Some {| Values.messages := None;
                         Values.rest := others |}))
           = Some (ensure (Stream.messages (stream w))
                     ++ [newHumanMessage]))
     /\ Values.messages (Submit.optimisticValues (Submit.opts c) None)
        = Some (ensure (Stream.messages (stream w)) ++ [newHumanMessage])
     /\ (forall prev,
           Values.rest (Submit.optimisticValues (Submit.opts c) (Some prev))
           = Values.rest prev)
     /\ Values.rest (Submit.optimisticValues (Submit.opts c) None) = []
     /\ firstTokenReceived (state w') = false
     /\ input (state w') = []
     /\ toasts (log w') = toasts (log w)
     /\ consoleErrors (log w') = consoleErrors (log w)
     /\ refs w' = refs w
     /\ stream w' = stream w).
Proof.
  split.
  - intros H. exists w. rewrite (handleSubmit_rejected w H). repeat split.
  - intros T L. eexists. eexists.
    exists (Message.human_literal (uuid (uuidDrawn (log w)))
              (input (state w))).
    split; [apply handleSubmit_accepted; assumption|].
    split; [reflexivity|].
    repeat (split; [intros; reflexivity|]).
    reflexivity.
Qed.

(** C1. Whenever the composer's [handleSubmit] or the visualization
    tool's [handleControlSubmit] runs, it calls [stream.submit] at most
    once, and the list it hands over is exactly
    [ensureToolCallsHaveResponses] of the current [stream.messages]
    followed by the one new human message. Hence, when the helper's
    result has every tool call answered (its contract), so has the list
    sent, and the lists sent so far keep that property. *)
Theorem submit_sends_reconciled_list
    (p : LLMVizToolProps) (w w' : World)
    (source : option (list Message.t)) :
  (handleSubmit ensure uuid w = Normal w'
   /\ source = Stream.messages (stream w))
  \/ (handleControlSubmit ensure uuid p w = Normal w'
      /\ source = Stream.messages (props_stream p)) ->
  submitted (log w') = submitted (log w)
  \/ exists c newHumanMessage,
       submitted (log w') = submitted (log w) ++ [c]
       /\ Message.type newHumanMessage = Message.human
       /\ Submit.values c = Some (ensure source ++ [newHumanMessage])
       /\ (all_tool_calls_answered (ensure source) = true ->
           all_tool_calls_answered (ensure source ++ [newHumanMessage])
           = true
           /\ (backend_never_sees_unanswered_call w ->
               backend_never_sees_unanswered_call w')).
Proof.
  intros [[H ->] | [H ->]].
  - destruct (list_eq_dec N.eq_dec (JsString.trim (input (state w))) [])
      as [T|T]; [|destruct (Stream.isLoading (stream w)) eqn:L].
    + rewrite handleSubmit_rejected in H by auto.
      inversion H; subst. now left.
    + rewrite handleSubmit_rejected in H by auto.
      inversion H; subst. now left.
    + rewrite (handleSubmit_accepted w T L) in H.
      inversion H; subst; clear H. right.
      eexists. exists (Message.human_literal (uuid (uuidDrawn (log w)))
                         (input (state w))).
      split; [reflexivity|]. split; [reflexivity|].
      split; [reflexivity|]. intros C.
      assert (all_tool_calls_answered
                (ensure (Stream.messages (stream w))
                   ++ [Message.human_literal (uuid (uuidDrawn (log w)))
                         (input (state w))]) = true) as A
        by (apply all_tool_calls_answered_snoc; auto).
      split; [exact A|].
      eapply backend_invariant_snoc; [reflexivity | exact A].
  - destruct (parentIsLoading p) eqn:L.
    + unfold handleControlSubmit in H. rewrite L in H.
      inversion H; subst. now left.
    + destruct (validation_guard p) as [_ G].
      destruct (negb (JsString.truthy_opt (selectedModel p))
                || negb (JsString.truthy_opt (selectedLayer p))
                || negb (JsString.truthy_opt (selectedHead p))
                || negb (JsString.truthy (JsString.trim (controlText p))))
        eqn:V.
      * rewrite handleControlSubmit_invalid in H
          by (auto; now apply validation_guard).
        inversion H; subst. now left.
      * assert (~ validation_fails p) as NV
          by (rewrite <- validation_guard, V; discriminate).
        rewrite (handleControlSubmit_valid ensure uuid p w L NV) in H.
        inversion H; subst; clear H. right.
        eexists. exists (Message.human_literal (uuid (uuidDrawn (log w)))
                           (JSON.stringify (visualization_request p))).
        split; [reflexivity|]. split; [reflexivity|].
        split; [reflexivity|]. intros C.
        match goal with
        | |- ?a = true /\ _ => assert (a = true) as A
            by (apply all_tool_calls_answered_snoc; auto)
        end.
        split; [exact A|].
        eapply backend_invariant_snoc; [reflexivity | exact A].
Qed.

End Composer.

(* ------------------------------------------------------------------ *)
(** * Regeneration *)

Lemma handleRegenerate_noop (cp : Nullable Checkpoint) (w : World) :
  match Stream.messages (stream w) with
  | None => True
  | Some ms => existsb is_ai ms = false
  end ->
  handleRegenerate cp w = Normal w.
Proof.
  unfold handleRegenerate.
  destruct (Stream.messages (stream w)) as [ms|]; [|reflexivity].
  intros H. destruct ms as [|m r]; [reflexivity|].
  replace (Z.of_nat (length (m :: r)) =? 0)%Z with false
    by (symmetry; apply Z.eqb_neq; simpl length; lia).
  assert (JsArray.findLastIndex is_ai (m :: r) = -1)%Z as K.
  { apply findLastIndex_from_none; [lia|].
    rewrite forallb_negb_existsb, H. reflexivity. }
  rewrite K. reflexivity.
Qed.

Lemma handleRegenerate_submits
    (cp : Nullable Checkpoint) (w : World) (ms : list Message.t) :
  Stream.messages (stream w) = Some ms ->
  existsb is_ai ms = true ->
  exists before lastAi after,
    ms = before ++ lastAi :: after
    /\ is_ai lastAi = true
    /\ existsb is_ai after = false
    /\ handleRegenerate cp w
       = Normal
           (stream_submit
              {| Submit.values := None;
                 Submit.opts :=
                   {| Submit.checkpoint := Some cp;
                      Submit.streamMode := [js "values"];
                      Submit.optimisticValues :=
                        optimistic_truncate (Z.of_nat (length before)) |} |}
              (setFirstTokenReceived false
                 (set_prevMessageLength
                    (Z.max 0 (prevMessageLength (refs w) - 1)) w))).
Proof.
  intros E H.
  destruct (findLastIndex_from_some is_ai ms 0%Z ltac:(lia) H)
    as (before & x & after & Hms & Hx & Hafter & Hk).
  exists before, x, after. split; [exact Hms|]. split; [exact Hx|].
  split.
  { rewrite forallb_negb_existsb in Hafter.
    now apply negb_true_iff in Hafter. }
  unfold handleRegenerate. rewrite E.
  replace (Z.of_nat (length ms) =? 0)%Z with false.
  2:{ symmetry. apply Z.eqb_neq. rewrite Hms, length_app. simpl. lia. }
  unfold JsArray.findLastIndex. rewrite Hk. simpl (0 + _)%Z.
  replace (Z.of_nat (length before) =? -1)%Z with false
    by (symmetry; apply Z.eqb_neq; lia).
  reflexivity.
Qed.

(** The projection of [handleRegenerate] cuts the previous list at the
    index found. *)
Lemma optimistic_truncate_messages (n : nat) (prev : option Values.t) :
  n <= length (Values.messages_or_empty prev) ->
  Values.messages (optimistic_truncate (Z.of_nat n) prev)
  = Some (firstn n (Values.messages_or_empty prev)).
Proof.
  unfold optimistic_truncate, Values.messages_or_empty. simpl.
  destruct (Values.messages_of prev) as [pm|]; intros H.
  - now rewrite slice_prefix.
  - now destruct n.
Qed.

(** C6. [handleRegenerate] is a no-op ([stream.submit] is not called and
    nothing changes) when the message list is absent, empty or without an
    assistant message. Otherwise the list splits around its last assistant
    message; the handler calls [stream.submit] once, with no input and the
    supplied checkpoint, resets the first-token flag, and its optimistic
    projection maps a previous state holding the current list to the
    messages strictly before that last assistant message (keeping the other
    keys), and an absent previous list to the empty list. *)
Theorem handleRegenerate_behaviour
    (cp : Nullable Checkpoint) (w : World) :
  (match Stream.messages (stream w) with
   | None => True
   | Some ms => ms = [] \/ existsb is_ai ms = false
   end ->
   exists w',
     handleRegenerate cp w = Normal w'
     /\ submitted (log w') = submitted (log w)
     /\ w' = w)
  /\
  (forall ms,
     Stream.messages (stream w) = Some ms ->
     existsb is_ai ms = true ->
     exists before lastAi after w' c,
       ms = before ++ lastAi :: after
       /\ Message.type lastAi = Message.ai
       /\ (forall m, In m after -> Message.type m <> Message.ai)
       /\ handleRegenerate cp w = Normal w'
       /\ submitted (log w') = submitted (log w) ++ [c]
       /\ Submit.values c = None
       /\ Submit.checkpoint (Submit.opts c) = Some cp
       /\ firstTokenReceived (state w') = false
       /\ (forall prev,
             Values.messages_of prev = Some ms ->
             Values.messages (Submit.optimisticValues (Submit.opts c) prev)
             = Some before)
       /\ (forall prev,
             Values.rest (Submit.optimisticValues (Submit.opts c) (Some prev))
             = Values.rest prev)
       /\ Values.messages (Submit.optimisticValues (Submit.opts c) None)
          = Some []).
Proof.
  split.
  - intros H. exists w. split; [|split; reflexivity].
    apply handleRegenerate_noop.
    destruct (Stream.messages (stream w)) as [ms|]; [|exact I].
    destruct H as [-> | H]; [reflexivity | exact H].
  - intros ms E H.
    destruct (handleRegenerate_submits cp w ms E H)
      as (before & x & after & Hms & Hx & Hafter & Heq).
    exists before, x, after. do 2 eexists.
    split; [exact Hms|]. split.
    { unfold is_ai in Hx. destruct (Message.type x); try discriminate.
      reflexivity. }
    split.
    { intros m Hin Hm.
      assert (existsb is_ai after = true) as C.
      { apply existsb_exists. exists m. split; [exact Hin|].
        unfold is_ai. now rewrite Hm. }
      congruence. }
    split; [exact Heq|].
    split; [reflexivity|]. split; [reflexivity|]. split; [reflexivity|].
    split; [reflexivity|]. split; [|split; reflexivity].
    intros prev Hp. cbn [Submit.optimisticValues Submit.opts].
    rewrite optimistic_truncate_messages.
    + unfold Values.messages_or_empty. rewrite Hp, Hms.
      now rewrite firstn_length_app.
    + unfold Values.messages_or_empty. rewrite Hp, Hms, length_app. lia.
Qed.

(* ------------------------------------------------------------------ *)
(** * Submissions while loading *)

Lemma snoc_neq {A} (l : list A) (x : A) : l ++ [x] <> l.
Proof.
  intros E. apply (f_equal (@length A)) in E.
  rewrite length_app in E. simpl in E. lia.
Qed.

(** C4, as the code has it. While a submission is in flight, [handleSubmit]
    and the visualization tool's [handleControlSubmit] return without
    calling [stream.submit] and without changing anything.
    [handleRegenerate] has no loading guard: also while loading it leaves
    [stream.submit] uncalled exactly when the message list is absent or
    holds no assistant message. *)
Theorem loading_rejects_submit_handlers
    (ensure : option (list Message.t) -> list Message.t)
    (uuid : nat -> jsstring) (w : World) :
  Stream.isLoading (stream w) = true ->
  handleSubmit ensure uuid w = Normal w
  /\ Thread_handleControlSubmit ensure uuid w = Normal w
  /\ (forall p, parentIsLoading p = true ->
                handleControlSubmit ensure uuid p w = Normal w)
  /\ (forall cp, exists w',
        handleRegenerate cp w = Normal w'
        /\ (submitted (log w') = submitted (log w)
            <-> match Stream.messages (stream w) with
                | None => True
                | Some ms => existsb is_ai ms = false
                end)).
Proof.
  intros L. split; [|split; [|split]].
  - apply handleSubmit_rejected. now right.
  - unfold Thread_handleControlSubmit, handleControlSubmit. simpl.
    now rewrite L.
  - intros p Lp. unfold handleControlSubmit. now rewrite Lp.
  - intros cp.
    destruct (Stream.messages (stream w)) as [ms|] eqn:E.
    + destruct (existsb is_ai ms) eqn:X.
      * destruct (handleRegenerate_submits cp w ms E X)
          as (b & x & a & _ & _ & _ & Heq).
        eexists. split; [exact Heq|]. simpl. split.
        -- intros C. now apply snoc_neq in C.
        -- discriminate.
      * exists w. split.
        -- apply handleRegenerate_noop. now rewrite E.
        -- tauto.
    + exists w. split.
      * apply handleRegenerate_noop. now rewrite E.
      * tauto.
Qed.

(* ------------------------------------------------------------------ *)
(** * Reads of an absent message list *)

Lemma index_last {A} (l : list A) :
  l <> [] ->
  exists x, JsArray.index l (Z.of_nat (length l) - 1) = Some x.
Proof.
  intros H. unfold JsArray.index.
  replace (Z.of_nat (length l) - 1 <? 0)%Z with false.
  2:{ symmetry. apply Z.ltb_ge. destruct l; [congruence | simpl length; lia]. }
  destruct (nth_error l (Z.to_nat (Z.of_nat (length l) - 1))) eqn:E.
  - eauto.
  - apply nth_error_None in E. destruct l; [congruence | simpl length in E; lia].
Qed.

(** With a message list present, the first-token effect completes
    normally. *)
Lemma firstTokenEffect_total (w : World) (ms : list Message.t) :
  Stream.messages (stream w) = Some ms ->
  exists w', firstTokenEffect w = Normal w'.
Proof.
  intros E. unfold firstTokenEffect. rewrite E.
  destruct (negb (Z.of_nat (length ms) =? prevMessageLength (refs w))%Z
            && negb (Z.of_nat (length ms) =? 0)%Z) eqn:G.
  - apply andb_true_iff in G as [_ G]. apply negb_true_iff in G.
    apply Z.eqb_neq in G.
    destruct (index_last ms) as (x & Hx).
    { intros ->. now apply G. }
    rewrite Hx. destruct (is_ai x); simpl; eauto.
  - simpl. eauto.
Qed.

(** Where the reads are guarded: with the stream's message list absent,
    the regenerate guard treats it as empty ([handleRegenerate] is a
    no-op, as it is for the empty list), and the chat-started computation
    does not read the list when a thread id is set. With a list present,
    empty or not, none of the three reads fails. *)
Theorem absent_message_list_guards (w : World) :
  (Stream.messages (stream w) = None ->
   (forall cp, handleRegenerate cp w = Normal w)
   /\ (JsString.truthy_opt (threadId (state w)) = true ->
       chatStarted w = Normal true))
  /\
  (forall ms,
     Stream.messages (stream w) = Some ms ->
     (exists w', firstTokenEffect w = Normal w')
     /\ chatStarted w
        = Normal (JsString.truthy_opt (threadId (state w))
                  || negb (Z.of_nat (length ms) =? 0)%Z)
     /\ (forall cp, exists w', handleRegenerate cp w = Normal w')
     /\ (ms = [] -> forall cp, handleRegenerate cp w = Normal w)).
Proof.
  split.
  - intros E. split.
    + intros cp. apply handleRegenerate_noop. now rewrite E.
    + intros T. unfold chatStarted. now rewrite T.
  - intros ms E. split; [|split; [|split]].
    + eapply firstTokenEffect_total; eassumption.
    + unfold chatStarted. rewrite E.
      now destruct (JsString.truthy_opt (threadId (state w))).
    + intros cp. destruct (existsb is_ai ms) eqn:X.
      * destruct (handleRegenerate_submits cp w ms E X)
          as (b & x & a & _ & _ & _ & Heq). eauto.
      * exists w. apply handleRegenerate_noop. now rewrite E.
    + intros -> cp. apply handleRegenerate_noop. now rewrite E.
Qed.

(* ------------------------------------------------------------------ *)
(** * Error notifications *)

Lemma errorEffect_suppressed (w : World) (e : Stream.error_value) :
  Stream.error (stream w) = Some e ->
  lastError (refs w) = Stream.message e ->
  errorEffect w = Normal w.
Proof.
  intros E L. unfold errorEffect. rewrite E, L.
  replace (strict_equal (Stream.message e) (Stream.message e)) with true
    by (symmetry; now apply strict_equal_eq).
  now rewrite orb_true_r.
Qed.

Lemma errorEffect_notifies (w : World) (e : Stream.error_value) :
  Stream.error (stream w) = Some e ->
  JsString.truthy_opt (Stream.message e) = true ->
  lastError (refs w) <> Stream.message e ->
  errorEffect w
  = Normal (toast_error (error_toast (Stream.message e))
              (set_lastError (Stream.message e) w)).
Proof.
  intros E T L. unfold errorEffect. rewrite E, T.
  apply strict_equal_neq in L. now rewrite L.
Qed.

(** Running the effect again on the same error changes nothing, so it
    does not matter how often a render re-runs it for one update. *)
Lemma errorEffect_idempotent (w w1 : World) :
  errorEffect w = Normal w1 -> errorEffect w1 = Normal w1.
Proof.
  unfold errorEffect at 1.
  destruct (Stream.error (stream w)) as [e|] eqn:E.
  - destruct (negb (JsString.truthy_opt (Stream.message e))
              || strict_equal (lastError (refs w)) (Stream.message e)) eqn:G;
      intros H; inversion H; subst; clear H.
    + unfold errorEffect. now rewrite E, G.
    + apply errorEffect_suppressed with (e := e); [exact E | reflexivity].
  - intros H. inversion H; subst; clear H.
    unfold errorEffect. simpl. now rewrite E.
Qed.

(** One update carrying a message, or clearing the error: a notification
    is raised exactly when the message differs from the one remembered,
    which afterwards is the message of this update. *)
Lemma error_update_step (e : option Stream.error_value) (w : World) :
  has_message e = true ->
  exists w',
    error_update e w = Normal w'
    /\ toasts (log w')
       = toasts (log w)
           ++ List.map error_toast (new_messages (lastError (refs w)) [e])
    /\ lastError (refs w') = message_of e.
Proof.
  intros M. unfold error_update.
  destruct e as [v|]; simpl in M |- *.
  - destruct (strict_equal (lastError (refs w)) (Stream.message v)) eqn:S.
    + apply strict_equal_eq in S.
      rewrite errorEffect_suppressed with (e := v); auto.
      eexists. split; [reflexivity|]. simpl.
      split; [now rewrite app_nil_r | exact S].
    + apply strict_equal_neq in S.
      rewrite errorEffect_notifies with (e := v); auto.
      eexists. split; [reflexivity|]. simpl. split; reflexivity.
  - eexists. split; [reflexivity|]. simpl.
    split; [now rewrite app_nil_r | reflexivity].
Qed.

Lemma new_messages_cons (before : option jsstring)
    (e : option Stream.error_value) (r : list (option Stream.error_value)) :
  new_messages before (e :: r)
  = new_messages before [e] ++ new_messages (message_of e) r.
Proof. simpl. now rewrite app_nil_r. Qed.

(** A sequence of such updates raises one notification for every update
    whose message differs from that of the update just before it. *)
Lemma error_updates_notify (es : list (option Stream.error_value)) :
  forallb has_message es = true ->
  forall w, exists w',
    error_updates es w = Normal w'
    /\ toasts (log w')
       = toasts (log w)
           ++ List.map error_toast (new_messages (lastError (refs w)) es).
Proof.
  induction es as [|e r IH]; intros M w.
  - exists w. simpl. split; [reflexivity | now rewrite app_nil_r].
  - simpl in M. apply andb_true_iff in M as [Me Mr].
    destruct (error_update_step e w Me) as (w1 & H1 & T1 & L1).
    destruct (IH Mr w1) as (w2 & H2 & T2).
    exists w2. split.
    + cbn [error_updates]. rewrite H1. exact H2.
    + rewrite T2, L1, (new_messages_cons (lastError (refs w)) e r).
      rewrite map_app, T1, app_assoc. reflexivity.
Qed.

Lemma errorEffect_without_message (w : World) (e : Stream.error_value) :
  Stream.error (stream w) = Some e ->
  JsString.truthy_opt (Stream.message e) = false ->
  errorEffect w = Normal w.
Proof.
  intros E T. unfold errorEffect. now rewrite E, T.
Qed.

(** One update, whatever it carries. *)
Lemma error_update_any (e : option Stream.error_value) (w : World) :
  exists w',
    error_update e w = Normal w'
    /\ toasts (log w')
       = toasts (log w)
           ++ List.map error_toast
                (notified_by_update (lastError (refs w)) e)
    /\ lastError (refs w') = shown_after_update (lastError (refs w)) e.
Proof.
  unfold error_update, notified_by_update, shown_after_update.
  destruct e as [v|].
  - destruct (JsString.truthy_opt (Stream.message v)) eqn:T.
    + destruct (strict_equal (lastError (refs w)) (Stream.message v)) eqn:S.
      * apply strict_equal_eq in S.
        rewrite errorEffect_suppressed with (e := v); auto.
        eexists. split; [reflexivity|]. simpl.
        split; [now rewrite app_nil_r | exact S].
      * apply strict_equal_neq in S.
        rewrite errorEffect_notifies with (e := v); auto.
        eexists. split; [reflexivity|]. simpl. split; reflexivity.
    + rewrite errorEffect_without_message with (e := v); auto.
      eexists. split; [reflexivity|]. simpl.
      split; [now rewrite app_nil_r | reflexivity].
  - eexists. split; [reflexivity|]. simpl.
    split; [now rewrite app_nil_r | reflexivity].
Qed.

(** Any sequence of updates notifies what these rules give, and
    remembers the message they give. *)
Lemma error_updates_any (es : list (option Stream.error_value)) :
  forall w, exists w',
    error_updates es w = Normal w'
    /\ toasts (log w')
       = toasts (log w)
           ++ List.map error_toast (notifications (lastError (refs w)) es)
    /\ lastError (refs w') = shown_after (lastError (refs w)) es.
Proof.
  induction es as [|e r IH]; intros w.
  - exists w. simpl. split; [reflexivity|].
    split; [now rewrite app_nil_r | reflexivity].
  - destruct (error_update_any e w) as (w1 & H1 & T1 & L1).
    destruct (IH w1) as (w2 & H2 & T2 & L2).
    exists w2. split; [cbn [error_updates]; rewrite H1; exact H2|].
    split.
    + rewrite T2, T1, L1. cbn [notifications].
      rewrite map_app, app_assoc. reflexivity.
    + rewrite L2, L1. reflexivity.
Qed.

(** C5, as the code has it. An error whose message equals the one last
    shown raises no notification; an error with a non-empty message that
    differs from the one last shown raises exactly one and becomes the one
    last shown; clearing the error forgets the message last shown, so the
    same message raises a notification again afterwards; an error whose
    message is missing or empty raises no notification and changes
    nothing, the message last shown included. Over any sequence of updates
    the notifications raised and the message remembered are the ones these
    rules give; over a sequence of updates that each clear the error or
    carry a non-empty message, one notification is raised per update whose
    message differs from that of the update before it. In particular two
    consecutive errors with the same non-empty message raise one
    notification, two with different non-empty messages raise two, and an
    error without message between two errors with the same message does
    not make the second one notify again. *)
Theorem error_notifications (w : World) :
  (forall e,
     Stream.error (stream w) = Some e ->
     lastError (refs w) = Stream.message e ->
     errorEffect w = Normal w)
  /\
  (forall e m,
     Stream.error (stream w) = Some e ->
     Stream.message e = Some m -> m <> [] ->
     lastError (refs w) <> Some m ->
     exists w',
       errorEffect w = Normal w'
       /\ toasts (log w') = toasts (log w) ++ [error_toast (Some m)]
       /\ lastError (refs w') = Some m)
  /\
  (Stream.error (stream w) = None ->
   exists w',
     errorEffect w = Normal w'
     /\ toasts (log w') = toasts (log w)
     /\ lastError (refs w') = None)
  /\
  (forall es,
     forallb has_message es = true ->
     exists w',
       error_updates es w = Normal w'
       /\ toasts (log w')
          = toasts (log w)
              ++ List.map error_toast
                   (new_messages (lastError (refs w)) es))
  /\
  (forall a b,
     a <> [] -> b <> [] ->
     lastError (refs w) = None ->
     exists w',
       error_updates [Some {| Stream.message := Some a |};
                      Some {| Stream.message := Some b |}] w
       = Normal w'
       /\ toasts (log w')
          = toasts (log w)
              ++ (if JsString.eqb a b
                  then [error_toast (Some a)]
                  else [error_toast (Some a); error_toast (Some b)]))
  /\
  (forall a,
     a <> [] ->
     lastError (refs w) = None ->
     exists w',
       error_updates [Some {| Stream.message := Some a |};
                      None;
                      Some {| Stream.message := Some a |}] w
       = Normal w'
       /\ toasts (log w')
          = toasts (log w) ++ [error_toast (Some a); error_toast (Some a)])
  /\
  (forall e,
     Stream.error (stream w) = Some e ->
     JsString.truthy_opt (Stream.message e) = false ->
     errorEffect w = Normal w)
  /\
  (forall es,
     exists w',
       error_updates es w = Normal w'
       /\ toasts (log w')
          = toasts (log w)
              ++ List.map error_toast
                   (notifications (lastError (refs w)) es)
       /\ lastError (refs w') = shown_after (lastError (refs w)) es)
  /\
  (forall a blank,
     a <> [] ->
     JsString.truthy_opt (Stream.message blank) = false ->
     lastError (refs w) = None ->
     exists w',
       error_updates [Some {| Stream.message := Some a |};
                      Some blank;
                      Some {| Stream.message := Some a |}] w
       = Normal w'
       /\ toasts (log w') = toasts (log w) ++ [error_toast (Some a)]
       /\ lastError (refs w') = Some a).
Proof.
  split; [|split; [|split; [|split; [|split; [|split; [|split; [|split]]]]]]].
  - intros e E L. now apply errorEffect_suppressed with (e := e).
  - intros e m E M N L. rewrite (errorEffect_notifies w e).
    + rewrite M. eexists. split; [reflexivity|]. split; reflexivity.
    + exact E.
    + rewrite M. simpl. now apply truthy_true_iff.
    + now rewrite M.
  - intros E. unfold errorEffect. rewrite E.
    eexists. split; [reflexivity|]. split; reflexivity.
  - intros es M. apply error_updates_notify. exact M.
  - intros a b Ha Hb L.
    destruct (error_updates_notify
                [Some {| Stream.message := Some a |};
                 Some {| Stream.message := Some b |}]) with (w := w)
      as (w' & H & T).
    { simpl. apply truthy_true_iff in Ha, Hb. now rewrite Ha, Hb. }
    exists w'. split; [exact H|]. rewrite T, L. simpl.
    destruct (JsString.eqb a b); reflexivity.
  - intros a Ha L.
    destruct (error_updates_notify
                [Some {| Stream.message := Some a |}; None;
                 Some {| Stream.message := Some a |}]) with (w := w)
      as (w' & H & T).
    { simpl. apply truthy_true_iff in Ha. now rewrite Ha. }
    exists w'. split; [exact H|]. rewrite T, L. reflexivity.
  - intros e E T. now apply errorEffect_without_message with (e := e).
  - intros es. apply error_updates_any.
  - intros a blank Ha Hb L.
    destruct (error_updates_any
                [Some {| Stream.message := Some a |}; Some blank;
                 Some {| Stream.message := Some a |}] w)
      as (w' & H & T & S).
    exists w'. split; [exact H|].
    destruct a as [|c r]; [now destruct Ha|].
    assert (notifications None
              [Some {| Stream.message := Some (c :: r) |}; Some blank;
               Some {| Stream.message := Some (c :: r) |}]
            = [Some (c :: r)]
            /\ shown_after None
                 [Some {| Stream.message := Some (c :: r) |}; Some blank;
                  Some {| Stream.message := Some (c :: r) |}]
               = Some (c :: r)) as [N A].
    { unfold shown_after.
      cbn [notifications notified_by_update shown_after_update fold_left
           Stream.message JsString.truthy_opt JsString.truthy
           strict_equal andb negb app].
      rewrite Hb.
      cbn [notifications notified_by_update shown_after_update fold_left
           Stream.message JsString.truthy_opt JsString.truthy
           strict_equal andb negb app].
      rewrite jsstring_eqb_refl. split; reflexivity. }
    rewrite L in T, S. rewrite N in T. rewrite A in S.
    split; [exact T | exact S].
Qed.

(* ------------------------------------------------------------------ *)
(** * The sample reconciliation meets the helper's contract *)

Lemma responds_to_placeholder (tc : Message.tool_call) :
  responds_to tc (Sample.placeholder tc) = true.
Proof.
  unfold responds_to, Sample.placeholder. simpl.
  apply jsstring_eqb_refl.
Qed.

Lemma reconcile_keeps (ms : list Message.t) (m : Message.t) :
  In m ms -> In m (Sample.reconcile ms).
Proof.
  induction ms as [|x r IH]; simpl; [tauto|].
  intros [-> | H]; [now left | right].
  apply in_or_app. right. now apply IH.
Qed.

(** Messages that make no call can be put in front. *)
Lemma all_tool_calls_answered_prefix (ps ms : list Message.t) :
  Forall (fun p => calls_of p = []) ps ->
  all_tool_calls_answered (ps ++ ms) = all_tool_calls_answered ms.
Proof.
  induction 1 as [|p ps Hp _ IH]; simpl; [reflexivity|].
  now rewrite Hp, IH.
Qed.

Lemma reconcile_answers_every_call (ms : list Message.t) :
  all_tool_calls_answered (Sample.reconcile ms) = true.
Proof.
  induction ms as [|m r IH]; simpl; [reflexivity|].
  apply andb_true_iff. split.
  - apply forallb_forall. intros tc Htc.
    rewrite existsb_app. apply orb_true_iff.
    destruct (existsb (responds_to tc) r) eqn:E.
    + right. apply existsb_exists in E as (x & Hx & Rx).
      apply existsb_exists. exists x. split; [|exact Rx].
      now apply reconcile_keeps.
    + left. apply existsb_exists. exists (Sample.placeholder tc).
      split; [|apply responds_to_placeholder].
      apply in_map. apply filter_In. split; [exact Htc|].
      now rewrite E.
  - rewrite all_tool_calls_answered_prefix; [exact IH|].
    apply Forall_forall. intros p Hp.
    apply in_map_iff in Hp as (tc & <- & _). reflexivity.
Qed.

(* ------------------------------------------------------------------ *)
(** * The handlers on sample conversations *)

(** With only blanks typed, the composer submits nothing. *)
Example handleSubmit_blank :
  handleSubmit Sample.ensureToolCallsHaveResponses Sample.uuid_source
    Sample.blank_input
  = Normal Sample.blank_input.
Proof. reflexivity. Qed.

(** The list sent from [Sample.pending]: the conversation, the placeholder
    answering the pending call, and the new message. *)
Example handleSubmit_pending_values :
  List.map Submit.values
    (submitted
       (log (Sample.after
               (handleSubmit Sample.ensureToolCallsHaveResponses
                  Sample.uuid_source Sample.pending)
               Sample.pending)))
  = [ Some [ Sample.question; Sample.pending_call;
             Sample.placeholder
               {| Message.tc_name := js "get_weather";
                  Message.tc_id := js "call-1" |};
             Message.human_literal (js "uuid-0") (js "never mind") ] ].
Proof. reflexivity. Qed.

Example pending_is_unanswered :
  all_tool_calls_answered [Sample.question; Sample.pending_call] = false.
Proof. reflexivity. Qed.

Example trim_blanks : JsString.trim (js "  a b  ") = js "a b".
Proof. reflexivity. Qed.

(** A quotation mark, a line feed, a control character, a surrogate pair
    and a lone trailing surrogate inside a JSON string literal. *)
Example quote_escapes :
  JsString.QuoteJSONString [97; 34; 10; 1; 55357; 56832; 56832]%N
  = [34; 97; 92; 34; 92; 110]%N ++ js "\u0001"
    ++ [55357; 56832]%N ++ js "\ude00" ++ [34%N].
Proof. reflexivity. Qed.

(* ------------------------------------------------------------------ *)
(** * Where the code departs from the specification *)

(** While a submission is in flight and the conversation holds an answer,
    [handleRegenerate] calls [stream.submit]. *)
Lemma handleRegenerate_submits_while_loading :
  Stream.isLoading (stream Sample.loading_with_answer) = true
  /\ submitted (log Sample.loading_with_answer) = []
  /\ exists w' c,
       handleRegenerate null Sample.loading_with_answer = Normal w'
       /\ submitted (log w') = [c]
       /\ Submit.values c = None.
Proof.
  split; [reflexivity|]. split; [reflexivity|].
  do 2 eexists. split; [reflexivity|]. split; reflexivity.
Qed.

(** An error whose message is the empty string raises no notification: of
    two updates with different messages, the empty one and [boom], only
    the second is notified. *)
Lemma empty_error_message_is_not_notified :
  (exists w',
     error_updates [Some {| Stream.message := Some [] |}] Sample.empty_list
     = Normal w'
     /\ toasts (log w') = [])
  /\ js "boom" <> []
  /\ exists w',
       error_updates [Some {| Stream.message := Some [] |};
                      Sample.err "boom"] Sample.empty_list
       = Normal w'
       /\ toasts (log w') = [error_toast (Some (js "boom"))].
Proof.
  split; [eexists; split; reflexivity|].
  split; [discriminate|].
  eexists. split; reflexivity.
Qed.

(** A submission of the visualization tool without a model, after a first
    token was received: the validation fails and the first-token flag
    flips from true to false. *)
Lemma invalid_submit_resets_first_token_flag :
  parentIsLoading (LLMVizTool_props Sample.no_model_after_first_token)
  = false
  /\ selectedModel (LLMVizTool_props Sample.no_model_after_first_token)
     = None
  /\ firstTokenReceived (state Sample.no_model_after_first_token) = true
  /\ exists w',
       handleControlSubmit Sample.ensureToolCallsHaveResponses
         Sample.uuid_source
         (LLMVizTool_props Sample.no_model_after_first_token)
         Sample.no_model_after_first_token
       = Normal w'
       /\ submitted (log w') = []
       /\ firstTokenReceived (state w') = false.
Proof.
  repeat (split; [reflexivity|]).
  eexists. split; [reflexivity|]. split; reflexivity.
Qed.


(* ------------------------------------------------------------------ *)
(** * The theorems at sample conversations *)

Lemma submit_sends_reconciled_list_witness :
  all_tool_calls_answered
    (Sample.ensureToolCallsHaveResponses
       (Stream.messages (stream Sample.pending))) = true
  /\ exists c newHumanMessage,
       submitted
         (log (Sample.after
                 (handleSubmit Sample.ensureToolCallsHaveResponses
                    Sample.uuid_source Sample.pending)
                 Sample.pending))
       = submitted (log Sample.pending) ++ [c]
       /\ Submit.values c
          = Some (Sample.ensureToolCallsHaveResponses
                    (Stream.messages (stream Sample.pending))
                    ++ [newHumanMessage])
       /\ all_tool_calls_answered
            (Sample.ensureToolCallsHaveResponses
               (Stream.messages (stream Sample.pending))
               ++ [newHumanMessage]) = true.
Proof.
  split; [reflexivity|].
  destruct (submit_sends_reconciled_list
              Sample.ensureToolCallsHaveResponses Sample.uuid_source
              (LLMVizTool_props Sample.pending)
              Sample.pending
              (Sample.after
                 (handleSubmit Sample.ensureToolCallsHaveResponses
                    Sample.uuid_source Sample.pending)
                 Sample.pending)
              (Stream.messages (stream Sample.pending)))
    as [E | (c & m & E & _ & V & A)].
  - left. split; reflexivity.
  - discriminate E.
  - exists c, m. split; [exact E|]. split; [exact V|].
    apply A. reflexivity.
Defined.

Lemma handleControlSubmit_invalid_notifies_witness :
  exists w',
    handleControlSubmit Sample.ensureToolCallsHaveResponses
      Sample.uuid_source
      (LLMVizTool_props Sample.no_model_after_first_token)
      Sample.no_model_after_first_token
    = Normal w'
    /\ toasts (log w')
       = toasts (log Sample.no_model_after_first_token)
           ++ [missing_fields_toast]
    /\ submitted (log w') = submitted (log Sample.no_model_after_first_token).
Proof.
  apply handleControlSubmit_invalid_notifies.
  - reflexivity.
  - left. reflexivity.
Defined.

Lemma handleControlSubmit_invalid_frame_witness :
  parentIsLoading (LLMVizTool_props Sample.no_model_after_first_token)
  = false
  /\ validation_fails (LLMVizTool_props Sample.no_model_after_first_token)
  /\ exists w',
       handleControlSubmit Sample.ensureToolCallsHaveResponses
         Sample.uuid_source
         (LLMVizTool_props Sample.no_model_after_first_token)
         Sample.no_model_after_first_token
       = Normal w'
       /\ submitted (log w') = []
       /\ llmVizControlText (state w') = js "The quick brown fox."
       /\ firstTokenReceived (state w') = false.
Proof.
  split; [reflexivity|]. split; [left; reflexivity|].
  destruct (handleControlSubmit_invalid_frame
              Sample.ensureToolCallsHaveResponses Sample.uuid_source
              (LLMVizTool_props Sample.no_model_after_first_token)
              Sample.no_model_after_first_token)
    as (w' & H & Hs & _ & _ & _ & _ & Ht & _ & _ & _ & _ & _ & Hf).
  - reflexivity.
  - left. reflexivity.
  - exists w'. split; [exact H|]. split; [exact Hs|].
    split; [exact Ht | exact Hf].
Defined.

Lemma handleControlSubmit_loading_is_noop_witness :
  exists w',
    handleControlSubmit Sample.ensureToolCallsHaveResponses
      Sample.uuid_source
      (LLMVizTool_props Sample.loading_with_answer)
      Sample.loading_with_answer
    = Normal w'
    /\ w' = Sample.loading_with_answer.
Proof.
  destruct (handleControlSubmit_loading_is_noop
              Sample.ensureToolCallsHaveResponses Sample.uuid_source
              (LLMVizTool_props Sample.loading_with_answer)
              Sample.loading_with_answer)
    as (w' & H & E & _).
  - reflexivity.
  - exists w'. split; [exact H | exact E].
Defined.

Lemma handleControlSubmit_payload_witness :
  exists w' c newHumanMessage,
    handleControlSubmit Sample.ensureToolCallsHaveResponses
      Sample.uuid_source (LLMVizTool_props Sample.pending) Sample.pending
    = Normal w'
    /\ submitted (log w') = [c]
    /\ Submit.values c
       = Some (Sample.ensureToolCallsHaveResponses
                 (Some [Sample.question; Sample.pending_call])
                 ++ [newHumanMessage])
    /\ Message.content newHumanMessage
       = js "{" ++ quoted "tool" ++ js ":" ++ quoted "llm_visualization"
         ++ js "," ++ quoted "model" ++ js ":" ++ quoted "gpt2"
         ++ js "," ++ quoted "layer" ++ js ":" ++ quoted "1"
         ++ js "," ++ quoted "head" ++ js ":" ++ quoted "1"
         ++ js "," ++ quoted "text" ++ js ":"
         ++ quoted "The quick brown fox." ++ js "}".
Proof.
  destruct (handleControlSubmit_payload
              Sample.ensureToolCallsHaveResponses Sample.uuid_source
              (LLMVizTool_props Sample.pending) Sample.pending
              (js "gpt2") (js "1") (js "1"))
    as (w' & c & m & H & Hs & Hv & _ & _ & Hc).
  - reflexivity.
  - intros [V | [V | [V | V]]]; discriminate V.
  - reflexivity.
  - reflexivity.
  - reflexivity.
  - exists w', c, m. split; [exact H|]. split; [exact Hs|].
    split; [exact Hv|]. rewrite Hc. reflexivity.
Defined.

Lemma handleSubmit_behaviour_witness :
  (exists w',
     handleSubmit Sample.ensureToolCallsHaveResponses Sample.uuid_source
       Sample.blank_input
     = Normal w'
     /\ submitted (log w') = []
     /\ input (state w') = js "   ")
  /\
  (exists w' c,
     handleSubmit Sample.ensureToolCallsHaveResponses Sample.uuid_source
       Sample.pending
     = Normal w'
     /\ submitted (log w') = [c]
     /\ Submit.values c
        = Some [ Sample.question; Sample.pending_call;
                 Sample.placeholder
                   {| Message.tc_name := js "get_weather";
                      Message.tc_id := js "call-1" |};
                 {| Message.id := Some (js "uuid-0");
                    Message.type := Message.human;
                    Message.content := js "never mind";
                    Message.tool_calls := [];
                    Message.tool_call_id := None |} ]
     /\ Values.messages
          (Submit.optimisticValues (Submit.opts c)
             (Some {| Values.messages := Some [Sample.answer];
                      Values.rest := [] |}))
        = Some [ Sample.answer;
                 Sample.question; Sample.pending_call;
                 Sample.placeholder
                   {| Message.tc_name := js "get_weather";
                      Message.tc_id := js "call-1" |};
                 {| Message.id := Some (js "uuid-0");
                    Message.type := Message.human;
                    Message.content := js "never mind";
                    Message.tool_calls := [];
                    Message.tool_call_id := None |} ]
     /\ input (state w') = []).
Proof.
  split.
  - destruct (handleSubmit_behaviour
                Sample.ensureToolCallsHaveResponses Sample.uuid_source
                Sample.blank_input)
      as [R _].
    destruct R as (w' & H & Hs & Hi & _).
    + left. reflexivity.
    + exists w'. split; [exact H|]. split; [exact Hs | exact Hi].
  - destruct (handleSubmit_behaviour
                Sample.ensureToolCallsHaveResponses Sample.uuid_source
                Sample.pending)
      as [_ A].
    destruct A
      as (w' & c & m & H & Hs & Hid & Hty & Hco & Htc & Hti & _ & Hv & _
          & _ & Hp & _ & _ & _ & _ & _ & Hi & _).
    + discriminate.
    + reflexivity.
    + assert (m = {| Message.id := Some (js "uuid-0");
                     Message.type := Message.human;
                     Message.content := js "never mind";
                     Message.tool_calls := [];
                     Message.tool_call_id := None |}) as Hm.
      { destruct m as [i t c0 tc ti]. simpl in *.
        rewrite Hid, Hty, Hco, Htc, Hti. reflexivity. }
      exists w', c. split; [exact H|]. split; [exact Hs|].
      split; [rewrite Hv, Hm; reflexivity|].
      split; [rewrite Hp, Hm; reflexivity | exact Hi].
Defined.

Lemma loading_rejects_submit_handlers_witness :
  Stream.isLoading (stream Sample.loading_with_answer) = true
  /\ handleSubmit Sample.ensureToolCallsHaveResponses Sample.uuid_source
       Sample.loading_with_answer
     = Normal Sample.loading_with_answer
  /\ Thread_handleControlSubmit Sample.ensureToolCallsHaveResponses
       Sample.uuid_source Sample.loading_with_answer
     = Normal Sample.loading_with_answer.
Proof.
  split; [reflexivity|].
  destruct (loading_rejects_submit_handlers
              Sample.ensureToolCallsHaveResponses Sample.uuid_source
              Sample.loading_with_answer)
    as (H1 & H2 & _).
  - reflexivity.
  - split; [exact H1 | exact H2].
Defined.

Lemma error_notifications_witness :
  (exists w',
     error_updates
       [Sample.err "timeout"; Sample.err "timeout"; None;
        Sample.err "timeout"; Sample.err "refused"]
       Sample.empty_list
     = Normal w'
     /\ toasts (log w')
        = [error_toast (Some (js "timeout"));
           error_toast (Some (js "timeout"));
           error_toast (Some (js "refused"))])
  /\
  (exists w',
     error_updates
       [Sample.err "timeout"; Some {| Stream.message := Some [] |};
        Sample.err "timeout"; Some {| Stream.message := None |};
        Sample.err "timeout"; None; Sample.err "timeout"]
       Sample.empty_list
     = Normal w'
     /\ toasts (log w')
        = [error_toast (Some (js "timeout"));
           error_toast (Some (js "timeout"))]
     /\ lastError (refs w') = Some (js "timeout")).
Proof.
  destruct (error_notifications Sample.empty_list)
    as (_ & _ & _ & Seq & _ & _ & _ & Any & _).
  split.
  - destruct (Seq [Sample.err "timeout"; Sample.err "timeout"; None;
                   Sample.err "timeout"; Sample.err "refused"])
      as (w' & H & T).
    + reflexivity.
    + exists w'. split; [exact H|]. rewrite T. reflexivity.
  - destruct (Any [Sample.err "timeout";
                   Some {| Stream.message := Some [] |};
                   Sample.err "timeout";
                   Some {| Stream.message := None |};
                   Sample.err "timeout"; None; Sample.err "timeout"])
      as (w' & H & T & S).
    exists w'. split; [exact H|].
    split; [rewrite T | rewrite S]; reflexivity.
Defined.

Lemma handleRegenerate_behaviour_witness :
  (exists w',
     handleRegenerate null Sample.empty_list = Normal w'
     /\ submitted (log w') = [])
  /\
  (exists w' c,
     handleRegenerate (defined (CheckpointMarker (js "cp-1")))
       Sample.after_first_token
     = Normal w'
     /\ submitted (log w') = [c]
     /\ Submit.checkpoint (Submit.opts c)
        = Some (defined (CheckpointMarker (js "cp-1")))
     /\ firstTokenReceived (state w') = false
     /\ Values.messages
          (Submit.optimisticValues (Submit.opts c)
             (Some {| Values.messages :=
                        Some [Sample.question; Sample.answer];
                      Values.rest := [] |}))
        = Some [Sample.question]).
Proof.
  split.
  - destruct (handleRegenerate_behaviour null Sample.empty_list)
      as [R _].
    destruct R as (w' & H & Hs & _).
    + left. reflexivity.
    + exists w'. split; [exact H | exact Hs].
  - destruct (handleRegenerate_behaviour
                (defined (CheckpointMarker (js "cp-1")))
                Sample.after_first_token)
      as [_ A].
    destruct (A [Sample.question; Sample.answer])
      as (b & x & a & w' & c & Hms & Hx & _ & H & Hs & _ & Hc & Hf & Ho & _).
    + reflexivity.
    + reflexivity.
    + exists w', c. split; [exact H|]. split; [exact Hs|].
      split; [exact Hc|]. split; [exact Hf|].
      rewrite (Ho (Some {| Values.messages :=
                             Some [Sample.question; Sample.answer];
                           Values.rest := [] |}) eq_refl).
      destruct b as [|q [|q' b]].
      * injection Hms as Hq _. rewrite <- Hq in Hx. discriminate Hx.
      * injection Hms as Hq _. rewrite <- Hq. reflexivity.
      * injection Hms as _ _ Hb. destruct b; discriminate Hb.
Defined.

Lemma absent_message_list_guards_witness :
  (forall cp, handleRegenerate cp Sample.absent_list
              = Normal Sample.absent_list)
  /\ (exists w', firstTokenEffect Sample.after_first_token = Normal w')
  /\ chatStarted Sample.after_first_token = Normal true.
Proof.
  destruct (absent_message_list_guards Sample.absent_list) as [A _].
  destruct (absent_message_list_guards Sample.after_first_token) as [_ P].
  destruct (A eq_refl) as [R _].
  destruct (P [Sample.question; Sample.answer] eq_refl) as (F & C & _).
  split; [exact R|]. split; [exact F | exact C].
Defined.

(* ------------------------------------------------------------------ *)
(** * Buttons, keys and what they let through *)

Lemma submitRequestDisabled_iff (p : LLMVizToolProps) :
  submitRequestDisabled p = true
  <-> parentIsLoading p = true \/ validation_fails p.
Proof.
  unfold submitRequestDisabled, validation_fails.
  rewrite !orb_true_iff, !negb_true_iff, truthy_false_iff. tauto.
Qed.

(** X1. The "Submit Request" button is enabled exactly when a click
    submits: on a disabled button [handleControlSubmit] calls
    [stream.submit] not at all, on an enabled one it calls it once, draws
    one identifier and shows no notification and logs no error. *)
Theorem submit_request_button_matches_handler
    (ensure : option (list Message.t) -> list Message.t)
    (uuid : nat -> jsstring) (p : LLMVizToolProps) (w : World) :
  (submitRequestDisabled p = true ->
   exists w',
     handleControlSubmit ensure uuid p w = Normal w'
     /\ submitted (log w') = submitted (log w)
     /\ uuidDrawn (log w') = uuidDrawn (log w))
  /\
  (submitRequestDisabled p = false ->
   exists w' c,
     handleControlSubmit ensure uuid p w = Normal w'
     /\ submitted (log w') = submitted (log w) ++ [c]
     /\ uuidDrawn (log w') = S (uuidDrawn (log w))
     /\ toasts (log w') = toasts (log w)
     /\ consoleErrors (log w') = consoleErrors (log w)).
Proof.
  split; intros D.
  - apply submitRequestDisabled_iff in D.
    destruct (parentIsLoading p) eqn:L.
    + exists w. unfold handleControlSubmit. rewrite L. repeat split.
    + destruct D as [D|D]; [discriminate|].
      eexists. split.
      * apply handleControlSubmit_invalid; assumption.
      * split; reflexivity.
  - assert (parentIsLoading p = false /\ ~ validation_fails p) as [L V].
    { split.
      - destruct (parentIsLoading p) eqn:L; [|reflexivity].
        assert (submitRequestDisabled p = true) as C
          by (apply submitRequestDisabled_iff; now left).
        congruence.
      - intros V.
        assert (submitRequestDisabled p = true) as C
          by (apply submitRequestDisabled_iff; now right).
        congruence. }
    do 2 eexists. split.
    + apply handleControlSubmit_valid; assumption.
    + repeat split.
Qed.

Lemma composerButton_enabled_iff (w : World) :
  composerButton w = SendButton false
  <-> Stream.isLoading (stream w) = false
      /\ JsString.trim (input (state w)) <> [].
Proof.
  unfold composerButton.
  destruct (Stream.isLoading (stream w)); simpl.
  - split; [discriminate | intros [? _]; discriminate].
  - rewrite <- truthy_true_iff.
    destruct (JsString.truthy (JsString.trim (input (state w)))); simpl;
      split; try tauto; try discriminate.
    intros [_ H]; discriminate.
Qed.

(** X2. A key press submits exactly when it is Enter without Shift and
    without Meta and the "Send" button is shown enabled: then it does what
    [handleSubmit] does and sends the input as typed. Any other key, a
    modified Enter, or Enter while "Cancel" or a disabled "Send" is shown,
    leaves everything as it is. *)
Theorem enter_key_submits_like_send
    (ensure : option (list Message.t) -> list Message.t)
    (uuid : nat -> jsstring) (e : KeyboardEvent) (w : World) :
  (key e = js "Enter" -> shiftKey e = false -> metaKey e = false ->
   composerButton w = SendButton false ->
   exists w' c,
     onKeyDown ensure uuid e w = Normal w'
     /\ submitted (log w') = submitted (log w) ++ [c]
     /\ Submit.values c
        = Some (ensure (Stream.messages (stream w))
                  ++ [Message.human_literal (uuid (uuidDrawn (log w)))
                        (input (state w))])
     /\ input (state w') = [])
  /\
  (key e <> js "Enter" \/ shiftKey e = true \/ metaKey e = true
   \/ composerButton w <> SendButton false ->
   onKeyDown ensure uuid e w = Normal w).
Proof.
  split.
  - intros K S M B. apply composerButton_enabled_iff in B as [L T].
    unfold onKeyDown. rewrite K, S, M, jsstring_eqb_refl. simpl.
    do 2 eexists. split.
    + apply handleSubmit_accepted; assumption.
    + repeat split.
  - intros H. unfold onKeyDown.
    destruct (JsString.eqb (key e) (js "Enter")) eqn:K; simpl;
      [|reflexivity].
    destruct (shiftKey e) eqn:S; simpl; [reflexivity|].
    destruct (metaKey e) eqn:M; simpl; [reflexivity|].
    apply jsstring_eqb_eq in K.
    destruct H as [H | [H | [H | H]]]; try congruence.
    apply handleSubmit_rejected.
    destruct (Stream.isLoading (stream w)) eqn:L; [now right | left].
    destruct (list_eq_dec N.eq_dec (JsString.trim (input (state w))) [])
      as [T|T]; [exact T|].
    exfalso. apply H. apply composerButton_enabled_iff. now split.
Qed.

(** A string has a code unit that is not white space exactly when trimming
    leaves something. *)
Lemma trim_nonempty_iff (s : jsstring) :
  JsString.trim s <> []
  <-> existsb (fun c => negb (JsString.is_white_space c)) s = true.
Proof.
  rewrite trim_nil_iff.
  rewrite <- (negb_involutive (existsb _ s)), <- forallb_negb_existsb.
  rewrite negb_true_iff.
  assert (forallb (fun x => negb (negb (JsString.is_white_space x))) s
          = forallb JsString.is_white_space s) as E.
  { induction s as [|c r IH]; simpl; [reflexivity|].
    now rewrite negb_involutive, IH. }
  rewrite E. destruct (forallb JsString.is_white_space s);
    split; congruence.
Qed.

(** X3. The composer never sends text made of white space only (blanks,
    tabs, line breaks, no-break spaces and the like), whatever the loading
    state; text with at least one other character is sent when nothing is
    in flight, and then the content of the message is the input exactly as
    typed, surrounding white space included. *)
Theorem composer_sends_iff_not_blank
    (ensure : option (list Message.t) -> list Message.t)
    (uuid : nat -> jsstring) (w : World) :
  (forallb JsString.is_white_space (input (state w)) = true ->
   handleSubmit ensure uuid w = Normal w)
  /\
  (existsb (fun c => negb (JsString.is_white_space c)) (input (state w))
   = true ->
   Stream.isLoading (stream w) = false ->
   exists w' c m,
     handleSubmit ensure uuid w = Normal w'
     /\ submitted (log w') = submitted (log w) ++ [c]
     /\ Submit.values c
        = Some (ensure (Stream.messages (stream w)) ++ [m])
     /\ Message.type m = Message.human
     /\ Message.content m = input (state w)).
Proof.
  split.
  - intros H. apply handleSubmit_rejected. left. now apply trim_nil_iff.
  - intros H L. apply trim_nonempty_iff in H.
    do 3 eexists. split.
    + apply handleSubmit_accepted; assumption.
    + repeat split.
Qed.

(* ------------------------------------------------------------------ *)
(** * The first-token flag over a conversation *)

Lemma last_is_ai_nonempty (ms : list Message.t) :
  last_is_ai ms = true -> (Z.of_nat (length ms) =? 0)%Z = false.
Proof.
  unfold last_is_ai. destruct ms as [|m r]; simpl length.
  - discriminate.
  - intros _. apply Z.eqb_neq. lia.
Qed.

(** The effect on a present list, in one equation. *)
Lemma firstTokenEffect_present (w : World) (ms : list Message.t) :
  Stream.messages (stream w) = Some ms ->
  firstTokenEffect w
  = Normal
      (set_prevMessageLength (Z.of_nat (length ms))
         (if negb (Z.of_nat (length ms) =? prevMessageLength (refs w))%Z
             && last_is_ai ms
          then setFirstTokenReceived true w
          else w)).
Proof.
  intros E. unfold firstTokenEffect. rewrite E.
  destruct (negb (Z.of_nat (length ms) =? prevMessageLength (refs w))%Z)
    eqn:P; simpl; [|reflexivity].
  destruct (Z.of_nat (length ms) =? 0)%Z eqn:Z0; simpl.
  - destruct (last_is_ai ms) eqn:A; [|reflexivity].
    apply last_is_ai_nonempty in A. congruence.
  - unfold last_is_ai.
    destruct (JsArray.index ms (Z.of_nat (length ms) - 1)) as [m|] eqn:I.
    + destruct (is_ai m); reflexivity.
    + destruct (index_last ms) as (x & Hx).
      * intros ->. discriminate.
      * congruence.
Qed.

(** X4. On a present message list the first-token effect cannot fail. It
    records the length of the list, and the flag afterwards is true exactly
    when it was true before or the length differs from the recorded one
    and the last message is an assistant message: the effect never resets
    the flag. It touches nothing else, and running it again on the same
    list changes nothing. *)
Theorem first_token_effect_behaviour (w : World) (ms : list Message.t) :
  Stream.messages (stream w) = Some ms ->
  exists w',
    firstTokenEffect w = Normal w'
    /\ prevMessageLength (refs w') = Z.of_nat (length ms)
    /\ firstTokenReceived (state w')
       = firstTokenReceived (state w)
         || (negb (Z.of_nat (length ms) =? prevMessageLength (refs w))%Z
             && last_is_ai ms)
    /\ lastError (refs w') = lastError (refs w)
    /\ log w' = log w
    /\ stream w' = stream w
    /\ setFirstTokenReceived (firstTokenReceived (state w)) w'
       = set_prevMessageLength (Z.of_nat (length ms)) w
    /\ firstTokenEffect w' = Normal w'.
Proof.
  intros E. rewrite (firstTokenEffect_present w ms E).
  eexists. split; [reflexivity|].
  destruct (negb (Z.of_nat (length ms) =? prevMessageLength (refs w))%Z
            && last_is_ai ms) eqn:G.
  - repeat split.
    + simpl. now rewrite orb_true_r.
    + destruct w as [[] [] ? ?]. reflexivity.
    + rewrite (firstTokenEffect_present _ ms) by exact E.
      simpl. rewrite Z.eqb_refl. reflexivity.
  - repeat split.
    + simpl. now rewrite orb_false_r.
    + destruct w as [[] [] ? ?]. reflexivity.
    + rewrite (firstTokenEffect_present _ ms) by exact E.
      simpl. rewrite Z.eqb_refl. reflexivity.
Qed.

(** X5. Why [handleRegenerate] lowers the recorded length: with the length
    recorded for the current list, regenerating and then receiving a list
    of the same length that ends in an assistant message makes the effect
    set the flag again; had the handler only reset the flag, the effect
    would have left it false. *)
Theorem regenerate_rearms_first_token
    (cp : Nullable Checkpoint) (w : World) (ms ms' : list Message.t)
    (s' : Stream.t) :
  Stream.messages (stream w) = Some ms ->
  existsb is_ai ms = true ->
  prevMessageLength (refs w) = Z.of_nat (length ms) ->
  Stream.messages s' = Some ms' ->
  length ms' = length ms ->
  last_is_ai ms' = true ->
  (exists w1 w2,
     handleRegenerate cp w = Normal w1
     /\ firstTokenReceived (state w1) = false
     /\ firstTokenEffect (with_stream s' w1) = Normal w2
     /\ firstTokenReceived (state w2) = true
     /\ prevMessageLength (refs w2) = Z.of_nat (length ms'))
  /\
  (exists w3,
     firstTokenEffect (with_stream s' (setFirstTokenReceived false w))
     = Normal w3
     /\ firstTokenReceived (state w3) = false).
Proof.
  intros E X P E' Len A. split.
  - destruct (handleRegenerate_submits cp w ms E X)
      as (b & x & a & Hms & _ & _ & Heq).
    do 2 eexists. split; [exact Heq|]. split; [reflexivity|].
    rewrite (firstTokenEffect_present _ ms') by exact E'.
    split; [reflexivity|].
    simpl. rewrite A, P, Len.
    assert (0 < Z.of_nat (length ms))%Z as Pos.
    { rewrite Hms, length_app. simpl. lia. }
    replace (Z.of_nat (length ms) =? Z.max 0 (Z.of_nat (length ms) - 1))%Z
      with false by (symmetry; apply Z.eqb_neq; lia).
    split; reflexivity.
  - rewrite (firstTokenEffect_present _ ms') by exact E'.
    eexists. split; [reflexivity|].
    simpl. rewrite P, Len, Z.eqb_refl. reflexivity.
Qed.

(** [slice(0, n)] is the prefix of length [n], the whole array when [n]
    exceeds its length. *)
Lemma slice_0_firstn {A} (l : list A) (n : nat) :
  JsArray.slice 0 (Z.of_nat n) l = firstn n l.
Proof.
  destruct (Nat.le_gt_cases n (length l)) as [H|H].
  - now apply slice_prefix.
  - unfold JsArray.slice. simpl.
    replace (Z.of_nat n <? 0)%Z with false
      by (symmetry; apply Z.ltb_ge; lia).
    rewrite (Z.min_r (Z.of_nat n)) by lia.
    rewrite (Z.min_l 0) by lia.
    rewrite Z.sub_0_r, Nat2Z.id.
    change (Z.to_nat 0) with 0%nat. cbn [skipn].
    rewrite !firstn_all2 by lia. reflexivity.
Qed.

(** X6. Whatever previous state the stream hands to the optimistic
    projection of [handleRegenerate], the projected messages are a prefix
    of the previous ones: as many of them as there are messages before the
    last assistant message of the rendered list, or all of them when the
    previous list is shorter. The projection never adds or reorders a
    message. *)
Theorem regenerate_projection_is_prefix
    (cp : Nullable Checkpoint) (w : World) (ms : list Message.t) :
  Stream.messages (stream w) = Some ms ->
  existsb is_ai ms = true ->
  exists w' c before lastAi after,
    handleRegenerate cp w = Normal w'
    /\ submitted (log w') = submitted (log w) ++ [c]
    /\ ms = before ++ lastAi :: after
    /\ is_ai lastAi = true
    /\ existsb is_ai after = false
    /\ forall prev, exists projected dropped,
         Values.messages (Submit.optimisticValues (Submit.opts c) prev)
         = Some projected
         /\ Values.messages_or_empty prev = projected ++ dropped
         /\ length projected
            = Nat.min (length before)
                (length (Values.messages_or_empty prev)).
Proof.
  intros E X.
  destruct (handleRegenerate_submits cp w ms E X)
    as (b & x & a & Hms & Hx & Ha & Heq).
  do 2 eexists. exists b, x, a.
  split; [exact Heq|]. split; [reflexivity|].
  split; [exact Hms|]. split; [exact Hx|]. split; [exact Ha|].
  intros prev. cbn [Submit.optimisticValues Submit.opts].
  unfold optimistic_truncate, Values.messages_or_empty. simpl.
  destruct (Values.messages_of prev) as [pm|].
  - exists (firstn (length b) pm), (skipn (length b) pm).
    rewrite slice_0_firstn, firstn_skipn, length_firstn.
    repeat split.
  - exists [], []. repeat split. simpl. now rewrite Nat.min_0_r.
Qed.

(** X7. The loading placeholder over one exchange: after the composer
    accepted a message, a render in which the stream is loading and the
    chat has started shows the placeholder; once the list delivered has a
    new length and ends in an assistant message, the first-token effect
    hides it. *)
Theorem loading_placeholder_lifecycle
    (ensure : option (list Message.t) -> list Message.t)
    (uuid : nat -> jsstring) (w : World) (s : Stream.t)
    (ms : list Message.t) :
  JsString.trim (input (state w)) <> [] ->
  Stream.isLoading (stream w) = false ->
  Stream.isLoading s = true ->
  Stream.messages s = Some ms ->
  ms <> [] \/ JsString.truthy_opt (threadId (state w)) = true ->
  exists w1,
    handleSubmit ensure uuid w = Normal w1
    /\ showAssistantMessageLoading (with_stream s w1) = Normal true
    /\ (last_is_ai ms = true ->
        Z.of_nat (length ms) <> prevMessageLength (refs w) ->
        exists w2,
          firstTokenEffect (with_stream s w1) = Normal w2
          /\ showAssistantMessageLoading w2 = Normal false).
Proof.
  intros T L Ls Es Started.
  eexists. split; [apply handleSubmit_accepted; assumption|].
  split.
  - unfold showAssistantMessageLoading, chatStarted. simpl.
    rewrite Es, Ls. simpl.
    destruct (JsString.truthy_opt (threadId (state w))) eqn:Th; simpl;
      [reflexivity|].
    destruct Started as [N | C]; [|discriminate].
    destruct ms; [congruence | reflexivity].
  - intros A N.
    rewrite (firstTokenEffect_present _ ms) by exact Es.
    eexists. split; [reflexivity|].
    simpl. rewrite A.
    replace (Z.of_nat (length ms) =? prevMessageLength (refs w))%Z
      with false by (symmetry; now apply Z.eqb_neq).
    simpl.
    unfold showAssistantMessageLoading, chatStarted. simpl.
    rewrite Es, Ls.
    destruct (JsString.truthy_opt (threadId (state w))); reflexivity.
Qed.

(* ------------------------------------------------------------------ *)
(** * What each handler can leave behind *)

Section Outcomes.

Variable ensure : option (list Message.t) -> list Message.t.
Variable uuid : nat -> jsstring.

Lemma handleSubmit_cases (w w' : World) :
  handleSubmit ensure uuid w = Normal w' ->
  w' = w
  \/ (Stream.isLoading (stream w) = false
      /\ JsString.trim (input (state w)) <> []
      /\ w' = setInput [] (message_sent ensure uuid (input (state w)) w)).
Proof.
  intros H.
  destruct (list_eq_dec N.eq_dec (JsString.trim (input (state w))) [])
    as [T|T]; [|destruct (Stream.isLoading (stream w)) eqn:L].
  - rewrite handleSubmit_rejected in H by auto. left. congruence.
  - rewrite handleSubmit_rejected in H by auto. left. congruence.
  - rewrite (handleSubmit_accepted ensure uuid w T L) in H.
    right. repeat split; auto. inversion H. reflexivity.
Qed.

Lemma onKeyDown_cases (e : KeyboardEvent) (w w' : World) :
  onKeyDown ensure uuid e w = Normal w' ->
  w' = w
  \/ (Stream.isLoading (stream w) = false
      /\ JsString.trim (input (state w)) <> []
      /\ w' = setInput [] (message_sent ensure uuid (input (state w)) w)).
Proof.
  unfold onKeyDown.
  destruct (JsString.eqb (key e) (js "Enter") && negb (shiftKey e)
            && negb (metaKey e)).
  - apply handleSubmit_cases.
  - intros H. left. congruence.
Qed.

Lemma handleControlSubmit_cases (p : LLMVizToolProps) (w w' : World) :
  handleControlSubmit ensure uuid p w = Normal w' ->
  Stream.messages (props_stream p) = Stream.messages (stream w) ->
  w' = w
  \/ (parentIsLoading p = false /\ validation_fails p
      /\ w' = validation_rejected w)
  \/ (parentIsLoading p = false /\ ~ validation_fails p
      /\ w' = message_sent ensure uuid
                (JSON.stringify (visualization_request p)) w).
Proof.
  intros H S.
  destruct (parentIsLoading p) eqn:L.
  - unfold handleControlSubmit in H. rewrite L in H. left. congruence.
  - destruct (negb (JsString.truthy_opt (selectedModel p))
              || negb (JsString.truthy_opt (selectedLayer p))
              || negb (JsString.truthy_opt (selectedHead p))
              || negb (JsString.truthy (JsString.trim (controlText p))))
      eqn:V.
    + apply validation_guard in V.
      rewrite (handleControlSubmit_invalid ensure uuid p w L V) in H.
      right. left. repeat split; auto. inversion H. reflexivity.
    + assert (~ validation_fails p) as NV
        by (rewrite <- validation_guard, V; discriminate).
      rewrite (handleControlSubmit_valid ensure uuid p w L NV) in H.
      right. right. repeat split; auto. inversion H.
      unfold message_sent. rewrite S. reflexivity.
Qed.

Lemma handleRegenerate_cases (cp : Nullable Checkpoint) (w w' : World) :
  handleRegenerate cp w = Normal w' ->
  w' = w
  \/ exists ms before lastAi after,
       Stream.messages (stream w) = Some ms
       /\ ms = before ++ lastAi :: after
       /\ is_ai lastAi = true
       /\ existsb is_ai after = false
       /\ w' = regenerated cp (Z.of_nat (length before)) w.
Proof.
  intros H.
  destruct (Stream.messages (stream w)) as [ms|] eqn:E.
  - destruct (existsb is_ai ms) eqn:X.
    + destruct (handleRegenerate_submits cp w ms E X)
        as (b & x & a & Hms & Hx & Ha & Heq).
      right. exists ms, b, x, a. repeat split; auto.
      rewrite Heq in H. inversion H. reflexivity.
    + rewrite handleRegenerate_noop in H by now rewrite E.
      left. congruence.
  - rewrite handleRegenerate_noop in H by now rewrite E.
    left. congruence.
Qed.

Lemma errorEffect_cases (w w' : World) :
  errorEffect w = Normal w' ->
  (Stream.error (stream w) = None /\ w' = set_lastError None w)
  \/ w' = w
  \/ exists e m,
       Stream.error (stream w) = Some e
       /\ Stream.message e = Some m
       /\ m <> []
       /\ lastError (refs w) <> Some m
       /\ w' = error_shown m w.
Proof.
  unfold errorEffect.
  destruct (Stream.error (stream w)) as [e|] eqn:E.
  - destruct (negb (JsString.truthy_opt (Stream.message e))
              || strict_equal (lastError (refs w)) (Stream.message e)) eqn:G;
      intros H; inversion H; subst; clear H.
    + right. left. reflexivity.
    + right. right.
      apply orb_false_iff in G as [G1 G2].
      apply negb_false_iff in G1. apply strict_equal_neq in G2.
      destruct (Stream.message e) as [m|] eqn:M; [|discriminate].
      exists e, m. repeat split; auto.
      now apply truthy_true_iff.
  - intros H. inversion H. left. split; reflexivity.
Qed.

Lemma firstTokenEffect_cases (w w' : World) :
  firstTokenEffect w = Normal w' ->
  exists ms,
    Stream.messages (stream w) = Some ms
    /\ (w' = set_prevMessageLength (Z.of_nat (length ms)) w
        \/ w' = set_prevMessageLength (Z.of_nat (length ms))
                  (setFirstTokenReceived true w)).
Proof.
  intros H.
  destruct (Stream.messages (stream w)) as [ms|] eqn:E.
  - exists ms. split; [reflexivity|].
    rewrite (firstTokenEffect_present w ms E) in H.
    destruct (negb (Z.of_nat (length ms) =? prevMessageLength (refs w))%Z
              && last_is_ai ms); inversion H; auto.
  - unfold firstTokenEffect in H. rewrite E in H. discriminate.
Qed.

End Outcomes.

(** Splits a hypothesis [dispatch ... ev w = Normal w'] into the outcomes
    of the event, with [w'] replaced by what it is in each. *)
Ltac dispatch_cases H :=
  match type of H with
  | dispatch _ _ ?ev ?w = Normal ?w' =>
      destruct ev; cbn [dispatch] in H;
      [ inversion H; subst; clear H
      | apply onKeyDown_cases in H;
        destruct H as [H | (? & ? & H)]; subst
      | apply handleSubmit_cases in H;
        destruct H as [H | (? & ? & H)]; subst
      | inversion H; subst; clear H
      | inversion H; subst; clear H
      | inversion H; subst; clear H
      | inversion H; subst; clear H
      | inversion H; subst; clear H
      | inversion H; subst; clear H
      | inversion H; subst; clear H
      | apply handleControlSubmit_cases in H; [|reflexivity];
        destruct H as [H | [(? & ? & H) | (? & ? & H)]]; subst
      | apply handleRegenerate_cases in H;
        destruct H as [H | (? & ? & ? & ? & ? & ? & ? & ? & H)]; subst
      | inversion H; subst; clear H
      | apply errorEffect_cases in H;
        destruct H as [[? H] | [H | (? & ? & ? & ? & ? & ? & H)]]; subst
      | apply firstTokenEffect_cases in H;
        destruct H as (? & ? & [H | H]); subst ]
  end.

(** An invariant kept by every event is kept by every run. *)
Lemma run_invariant
    (ensure : option (list Message.t) -> list Message.t)
    (uuid : nat -> jsstring) (Inv : World -> Prop) :
  (forall ev w w', Inv w -> dispatch ensure uuid ev w = Normal w' -> Inv w') ->
  forall evs w w',
    Inv w -> run ensure uuid evs w = Normal w' -> Inv w'.
Proof.
  intros Step. induction evs as [|ev r IH]; intros w w' I H.
  - simpl in H. inversion H. subst. exact I.
  - cbn [run] in H.
    destruct (dispatch ensure uuid ev w) as [w1|] eqn:D; simpl in H.
    + eapply IH; [|exact H]. eapply Step; eassumption.
    + discriminate.
Qed.

(* ------------------------------------------------------------------ *)
(** * Invariants of the view over any sequence of events *)

Section Invariants.

Variable ensure : option (list Message.t) -> list Message.t.
Variable uuid : nat -> jsstring.

Lemma message_sent_answered (content : jsstring) (w : World) :
  all_tool_calls_answered (ensure (Stream.messages (stream w))) = true ->
  backend_never_sees_unanswered_call w ->
  backend_never_sees_unanswered_call (message_sent ensure uuid content w).
Proof.
  intros C I.
  eapply backend_invariant_snoc; [reflexivity | | exact I].
  cbn [Submit.values]. apply all_tool_calls_answered_snoc; auto.
Qed.

(** X8. If the reconciliation helper answers every tool call of every list
    it is given, then no sequence of user actions, stream updates and
    effect runs makes the view hand the backend a list with an unanswered
    tool call. *)
Theorem backend_never_sees_unanswered_call_invariant
    (evs : list Event) (w w' : World) :
  (forall ms, all_tool_calls_answered (ensure ms) = true) ->
  backend_never_sees_unanswered_call w ->
  run ensure uuid evs w = Normal w' ->
  backend_never_sees_unanswered_call w'.
Proof.
  intros C. revert evs w w'.
  apply (run_invariant ensure uuid backend_never_sees_unanswered_call).
  intros ev w w' I H.
  dispatch_cases H;
    first [ exact I
          | exact (message_sent_answered _ w (C _) I)
          | eapply backend_invariant_snoc;
            [reflexivity | exact Logic.I | exact I] ].
Qed.

Lemma sent_message_ids_snoc (w w' : World) (c : Submit.call) :
  submitted (log w') = submitted (log w) ++ [c] ->
  sent_message_ids w'
  = sent_message_ids w
    ++ match Submit.values c with
       | Some ms =>
           match rev ms with
           | m :: _ => [Message.id m]
           | [] => []
           end
       | None => []
       end.
Proof.
  intros E. unfold sent_message_ids. rewrite E, flat_map_app. simpl.
  now rewrite app_nil_r.
Qed.

Lemma sent_message_ids_message_sent (content : jsstring) (w : World) :
  sent_message_ids (message_sent ensure uuid content w)
  = sent_message_ids w ++ [Some (uuid (uuidDrawn (log w)))].
Proof.
  rewrite (sent_message_ids_snoc w (message_sent ensure uuid content w)
             _ eq_refl).
  cbn [Submit.values]. rewrite rev_app_distr. reflexivity.
Qed.

Lemma ids_are_the_draws_step (ev : Event) (w w' : World) :
  ids_are_the_draws uuid w ->
  dispatch ensure uuid ev w = Normal w' ->
  ids_are_the_draws uuid w'.
Proof.
  unfold ids_are_the_draws. intros I H.
  assert (forall content,
            sent_message_ids (message_sent ensure uuid content w)
            = List.map (fun k => Some (uuid k))
                (seq 0 (S (uuidDrawn (log w))))) as Sent.
  { intros content. rewrite sent_message_ids_message_sent, I.
    rewrite seq_S, map_app. reflexivity. }
  dispatch_cases H; try exact I; try apply Sent.
  match goal with
  | |- sent_message_ids ?W = _ =>
      rewrite (sent_message_ids_snoc w W _ eq_refl)
  end.
  cbn [Submit.values]. rewrite app_nil_r. exact I.
Qed.

(** X9. Starting with nothing submitted and no identifier drawn, after any
    sequence of events the identifiers of the messages the view has built
    and sent are the successive results of [uuidv4], one per message sent,
    in the order sent; if the generator never repeats a value, no two
    messages sent share an identifier. *)
Theorem sent_messages_have_distinct_ids
    (evs : list Event) (w w' : World) :
  submitted (log w) = [] ->
  uuidDrawn (log w) = 0 ->
  run ensure uuid evs w = Normal w' ->
  sent_message_ids w'
  = List.map (fun k => Some (uuid k)) (seq 0 (uuidDrawn (log w')))
  /\ ((forall i j, uuid i = uuid j -> i = j) ->
      NoDup (sent_message_ids w')).
Proof.
  intros S0 U0 H.
  assert (ids_are_the_draws uuid w') as I.
  { revert H. apply (run_invariant ensure uuid (ids_are_the_draws uuid)).
    - apply ids_are_the_draws_step.
    - unfold ids_are_the_draws, sent_message_ids. now rewrite S0, U0. }
  split; [exact I|].
  intros Inj. rewrite I.
  apply Finite.Injective_map_NoDup; [|apply seq_NoDup].
  intros i j E. apply Inj. congruence.
Qed.

(** X10. While a submission is in flight, the only event that makes the
    view call [stream.submit] is a click on regenerate, and that call
    carries no input but the checkpoint; no identifier is drawn and the
    tool's validation notification is not shown. *)
Theorem only_regenerate_submits_while_loading
    (ev : Event) (w w' : World) :
  Stream.isLoading (stream w) = true ->
  dispatch ensure uuid ev w = Normal w' ->
  uuidDrawn (log w') = uuidDrawn (log w)
  /\ consoleErrors (log w') = consoleErrors (log w)
  /\ (submitted (log w') = submitted (log w)
      \/ exists cp c,
           ev = ClickRegenerate cp
           /\ submitted (log w') = submitted (log w) ++ [c]
           /\ Submit.values c = None
           /\ Submit.checkpoint (Submit.opts c) = Some cp).
Proof.
  intros L H.
  dispatch_cases H;
    try (split; [reflexivity | split; [reflexivity | left; reflexivity]]);
    try (simpl in *; congruence).
  split; [reflexivity|]. split; [reflexivity|]. right.
  do 2 eexists. repeat split.
Qed.

(** X11. The recorded message length never becomes negative. *)
Theorem prevMessageLength_never_negative
    (evs : list Event) (w w' : World) :
  (0 <= prevMessageLength (refs w))%Z ->
  run ensure uuid evs w = Normal w' ->
  (0 <= prevMessageLength (refs w'))%Z.
Proof.
  revert evs w w'.
  apply (run_invariant ensure uuid
           (fun w => (0 <= prevMessageLength (refs w))%Z)).
  intros ev w w' I H.
  dispatch_cases H; simpl; try exact I; lia.
Qed.

(** X12. Every notification the view raises is either the tool's
    validation message or an error notification whose description is a
    non-empty error message. *)
Theorem toasts_are_well_formed (evs : list Event) (w w' : World) :
  Forall well_formed_toast (toasts (log w)) ->
  run ensure uuid evs w = Normal w' ->
  Forall well_formed_toast (toasts (log w')).
Proof.
  revert evs w w'.
  apply (run_invariant ensure uuid
           (fun w => Forall well_formed_toast (toasts (log w)))).
  intros ev w w' I H.
  dispatch_cases H; simpl; try exact I.
  - apply Forall_app. split; [exact I|]. constructor; [|constructor].
    now left.
  - apply Forall_app. split; [exact I|]. constructor; [|constructor].
    right. eauto.
Qed.

Lemma tool_fields_step (ev : Event) (w w' : World) :
  edits_tool_field ev = false ->
  dispatch ensure uuid ev w = Normal w' ->
  llmVizModel (state w') = llmVizModel (state w)
  /\ llmVizLayer (state w') = llmVizLayer (state w)
  /\ llmVizHead (state w') = llmVizHead (state w)
  /\ llmVizControlText (state w') = llmVizControlText (state w).
Proof.
  intros E H.
  dispatch_cases H; try discriminate E; repeat split.
Qed.

(** X13. The four fields of the visualization tool are lifted into the
    Thread view: whatever else happens (selecting another tool and coming
    back, sending from the composer or from the tool, a refused or a
    successful submission, regenerating, stream updates), they keep their
    values until the user edits them. *)
Theorem tool_fields_persist (evs : list Event) (w w' : World) :
  forallb (fun ev => negb (edits_tool_field ev)) evs = true ->
  run ensure uuid evs w = Normal w' ->
  llmVizModel (state w') = llmVizModel (state w)
  /\ llmVizLayer (state w') = llmVizLayer (state w)
  /\ llmVizHead (state w') = llmVizHead (state w)
  /\ llmVizControlText (state w') = llmVizControlText (state w).
Proof.
  revert w. induction evs as [|ev r IH]; intros w F H.
  - simpl in H. inversion H. repeat split.
  - simpl in F. apply andb_true_iff in F as [Fe Fr].
    apply negb_true_iff in Fe. cbn [run] in H.
    destruct (dispatch ensure uuid ev w) as [w1|] eqn:D; simpl in H;
      [|discriminate].
    destruct (tool_fields_step ev w w1 Fe D) as (A & B & C & E).
    destruct (IH w1 Fr H) as (A' & B' & C' & E').
    repeat split; congruence.
Qed.

End Invariants.

(* ------------------------------------------------------------------ *)
(** * The selects and the tools panel *)

Lemma js_injective (a b : string) : js a = js b -> a = b.
Proof.
  unfold js, JsString.of_ascii. intros H.
  apply (f_equal (List.map ascii_of_N)) in H.
  rewrite !map_map in H.
  assert (forall l, List.map (fun x => ascii_of_N (N_of_ascii x)) l = l)
    as Id.
  { induction l as [|x l IH]; simpl; [reflexivity|].
    now rewrite ascii_N_embedding, IH. }
  rewrite !Id in H.
  apply (f_equal string_of_list_ascii) in H.
  now rewrite !string_of_list_ascii_of_string in H.
Qed.

Lemma to_uint_nonnil (n : nat) : Nat.to_uint n <> Decimal.Nil.
Proof.
  rewrite <- (DecimalNat.Unsigned.of_to n) at 1.
  rewrite DecimalNat.Unsigned.to_of.
  apply DecimalFacts.unorm_nonnil.
Qed.

(** [String] is one-to-one on the non-negative integers. *)
Lemma Number_toString_injective (i j : nat) :
  Number_toString i = Number_toString j -> i = j.
Proof.
  unfold Number_toString. intros H. apply js_injective in H.
  apply DecimalNat.Unsigned.to_uint_inj.
  apply (f_equal DecimalString.NilZero.uint_of_string) in H.
  rewrite !DecimalString.NilZero.usu in H by apply to_uint_nonnil.
  congruence.
Qed.

Lemma options_are_truthy (v : jsstring) :
  In v (modelOptions ++ layerOptions ++ headOptions) ->
  JsString.truthy v = true.
Proof.
  revert v. apply forallb_forall. reflexivity.
Qed.

Lemma selects_are_set_initially (tid : option jsstring) (s : Stream.t) :
  selects_are_set (initial_world tid s).
Proof. repeat split. Qed.

Lemma selects_are_set_step
    (ensure : option (list Message.t) -> list Message.t)
    (uuid : nat -> jsstring) (ev : Event) (w w' : World) :
  offered ev ->
  selects_are_set w ->
  dispatch ensure uuid ev w = Normal w' ->
  selects_are_set w'.
Proof.
  unfold selects_are_set. intros O I H.
  dispatch_cases H; try exact I; simpl in O |- *;
    destruct I as (A & B & C); repeat split; auto;
    apply options_are_truthy; rewrite !in_app_iff; auto.
Qed.

(** X14. From the state at mount, as long as the selects report values of
    their option lists, the model, the layer and the head always hold a
    non-empty value, whatever happens in between; so the validation of
    the tool's submit handler can fail only because the text is empty
    after trimming. *)
Theorem only_blank_text_fails_validation
    (ensure : option (list Message.t) -> list Message.t)
    (uuid : nat -> jsstring) (evs : list Event)
    (tid : option jsstring) (s : Stream.t) (w' : World) :
  Forall offered evs ->
  run ensure uuid evs (initial_world tid s) = Normal w' ->
  selects_are_set w'
  /\ (validation_fails (LLMVizTool_props w')
      <-> JsString.trim (llmVizControlText (state w')) = []).
Proof.
  intros O H.
  assert (selects_are_set w') as S.
  { revert O H. generalize (selects_are_set_initially tid s).
    generalize (initial_world tid s) as w.
    induction evs as [|ev r IH]; intros w I O H.
    - simpl in H. inversion H. subst. exact I.
    - inversion O as [|? ? Oe Or]; subst. cbn [run] in H.
      destruct (dispatch ensure uuid ev w) as [w1|] eqn:D; simpl in H;
        [|discriminate].
      apply (IH w1); auto.
      eapply selects_are_set_step; eassumption. }
  split; [exact S|].
  destruct S as (A & B & C).
  unfold validation_fails. simpl. rewrite A, B, C.
  split; [intros [X|[X|[X|X]]]; try discriminate; exact X | auto].
Qed.

(** X15. Clicking an entry of the tools catalogue selects it: the panel
    then shows that entry's component under its name, with a back button;
    the lifted props go to the component exactly when it is the
    visualization tool, and going back shows the catalogue again. The
    "not found" line can only appear for a non-empty id that is in no
    catalogue entry. *)
Theorem tools_panel_shows_selected_tool (w : World) :
  (forall d,
     In d availableTools ->
     SelectedToolDefinition (setSelectedToolId (Some (tool_id d)) w)
     = Some d
     /\ toolsPanelHeader (setSelectedToolId (Some (tool_id d)) w)
        = (true, tool_name d)
     /\ toolsPanelBody (setSelectedToolId (Some (tool_id d)) w)
        = ToolView (tool_component d)
            (match tool_component d with
             | LLMVizTool =>
                 Some (LLMVizTool_props
                         (setSelectedToolId (Some (tool_id d)) w))
             | _ => None
             end)
     /\ LLMVizTool_props (setSelectedToolId (Some (tool_id d)) w)
        = LLMVizTool_props w)
  /\ toolsPanelBody (setSelectedToolId None w) = ToolList availableTools
  /\ toolsPanelHeader (setSelectedToolId None w) = (false, js "Tools")
  /\ (toolsPanelBody w = ToolNotFound ->
      exists id,
        selectedToolId (state w) = Some id
        /\ id <> []
        /\ forall d, In d availableTools -> tool_id d <> id).
Proof.
  split; [|split; [|split]].
  - intros d [<- | [<- | [<- | []]]]; repeat split.
  - reflexivity.
  - reflexivity.
  - unfold toolsPanelBody, SelectedToolDefinition.
    destruct (selectedToolId (state w)) as [id|] eqn:E; simpl;
      [|discriminate].
    destruct (JsString.truthy id) eqn:T; simpl; [|discriminate].
    destruct (JsString.eqb (js "llm-visualization") id) eqn:E1;
      [destruct (JsString.eqb id (js "llm-visualization")); discriminate|].
    destruct (JsString.eqb (js "token-analyzer") id) eqn:E2;
      [destruct (JsString.eqb id (js "llm-visualization")); discriminate|].
    destruct (JsString.eqb (js "prompt-explorer") id) eqn:E3;
      [destruct (JsString.eqb id (js "llm-visualization")); discriminate|].
    intros _. exists id. split; [reflexivity|].
    split; [now apply truthy_true_iff|].
    intros d [<- | [<- | [<- | []]]]; simpl; intros C; subst id;
      rewrite jsstring_eqb_refl in *; discriminate.
Qed.

(* ------------------------------------------------------------------ *)
(** * The transcript *)

Lemma uint_digits_no_dash (d : Decimal.uint) :
  ~ In 45%N (js (DecimalString.NilEmpty.string_of_uint d)).
Proof.
  unfold js, JsString.of_ascii.
  induction d; simpl; [tauto | ..]; intros [C | C];
    try discriminate C; auto.
Qed.

Lemma Number_toString_no_dash (n : nat) : ~ In 45%N (Number_toString n).
Proof.
  unfold Number_toString, DecimalString.NilZero.string_of_uint.
  destruct (Nat.to_uint n) eqn:E; try (rewrite <- E; clear E);
    try apply uint_digits_no_dash.
  simpl. intros [C | []]. discriminate C.
Qed.

Lemma kind_name_no_dash (k : Message.kind) : ~ In 45%N (kind_name k).
Proof.
  destruct k; simpl; intuition discriminate.
Qed.

(** Two strings cut at their first separator agree part by part. *)
Lemma split_at_separator (sep : N) (a b r r' : jsstring) :
  ~ In sep a -> ~ In sep b ->
  a ++ sep :: r = b ++ sep :: r' ->
  a = b /\ r = r'.
Proof.
  revert b. induction a as [|x a IH]; intros [|y b] Ha Hb E; simpl in *.
  - injection E as <-. auto.
  - injection E as <- _. exfalso. apply Hb. now left.
  - injection E as -> _. exfalso. apply Ha. now left.
  - injection E as <- E.
    destruct (IH b) as [-> ->]; auto.
Qed.

(** The fallback key tells the index. *)
Lemma fallback_key_injective (now : nat -> nat) (m m' : Message.t)
    (i j : nat) :
  fallback_key now m i = fallback_key now m' j -> i = j.
Proof.
  unfold fallback_key. intros E.
  change (js "-") with [45%N] in E. simpl app in E.
  apply split_at_separator in E as [_ E]; try apply kind_name_no_dash.
  apply split_at_separator in E as [E _];
    try apply Number_toString_no_dash.
  now apply Number_toString_injective.
Qed.

Lemma map_with_index_nth {A B} (f : A -> nat -> B) (l : list A)
    (i k : nat) :
  nth_error (map_with_index f l i) k
  = option_map (fun x => f x (i + k)) (nth_error l k).
Proof.
  revert i k. induction l as [|x l IH]; intros i [|k]; simpl;
    try reflexivity.
  - now rewrite Nat.add_0_r.
  - rewrite IH. now rewrite Nat.add_succ_comm.
Qed.

Lemma map_with_index_messages (now : nat -> nat)
    (loading hide : bool) (l : list Message.t) (i : nat) :
  List.map bubble_message
    (map_with_index (render_message now loading hide) l i)
  = l.
Proof.
  revert i. induction l as [|m l IH]; intros i; simpl; [reflexivity|].
  rewrite IH. unfold render_message.
  now destruct (Message.kind_eqb (Message.type m) Message.human).
Qed.

Lemma render_message_key (now : nat -> nat) (loading hide : bool)
    (m : Message.t) (i : nat) :
  bubble_key (render_message now loading hide m i) = uniqueKey now m i
  /\ bubble_message (render_message now loading hide m i) = m.
Proof.
  unfold render_message.
  now destruct (Message.kind_eqb (Message.type m) Message.human).
Qed.

(** X16. With a message list present the transcript renders, in the order
    of the list, exactly the messages whose id does not start with the
    reserved prefix; a message without id is always rendered. A human
    message becomes a human bubble and every other message an assistant
    bubble. A message with a non-empty id is keyed by it; the fallback
    keys given to messages without (or with an empty) id differ from one
    position of the transcript to another, whatever the clock returns. *)
Theorem transcript_bubbles_and_keys
    (prefix : jsstring) (now : nat -> nat) (hide : bool)
    (w : World) (ms : list Message.t) :
  Stream.messages (stream w) = Some ms ->
  exists bubbles,
    transcript prefix now hide w = Normal bubbles
    /\ List.map bubble_message bubbles
       = List.filter (is_rendered prefix) ms
    /\ (forall m, In m ms -> Message.id m = None ->
                  In m (List.map bubble_message bubbles))
    /\ (forall b, In b bubbles ->
          match b with
          | HumanMessage _ m _ => Message.type m = Message.human
          | AssistantMessage _ m _ _ => Message.type m <> Message.human
          end)
    /\ (forall b k, In b bubbles ->
          Message.id (bubble_message b) = Some k -> k <> [] ->
          bubble_key b = k)
    /\ (forall i j bi bj,
          nth_error bubbles i = Some bi ->
          nth_error bubbles j = Some bj ->
          i <> j ->
          JsString.truthy_opt (Message.id (bubble_message bi)) = false ->
          JsString.truthy_opt (Message.id (bubble_message bj)) = false ->
          bubble_key bi <> bubble_key bj).
Proof.
  intros E. unfold transcript. rewrite E.
  eexists. split; [reflexivity|].
  split; [apply map_with_index_messages|].
  split.
  { intros m Hin Hid. rewrite map_with_index_messages.
    apply filter_In. split; [exact Hin|].
    unfold is_rendered. now rewrite Hid. }
  set (shown := List.filter (is_rendered prefix) ms).
  set (f := render_message now (Stream.isLoading (stream w)) hide).
  assert (forall b, In b (map_with_index f shown 0) ->
                    exists m i, b = f m i) as Shape.
  { intros b Hb. apply In_nth_error in Hb as (k & Hk).
    rewrite map_with_index_nth in Hk.
    destruct (nth_error shown k) as [m|]; [|discriminate].
    simpl in Hk. inversion Hk. eauto. }
  split.
  { intros b Hb. destruct (Shape b Hb) as (m & i & ->).
    unfold f, render_message.
    destruct (Message.kind_eqb (Message.type m) Message.human) eqn:K.
    - destruct (Message.type m); try discriminate K. reflexivity.
    - intros C. rewrite C in K. discriminate K. }
  split.
  { intros b k Hb Hid Hk. destruct (Shape b Hb) as (m & i & ->).
    unfold f in *.
    destruct (render_message_key now (Stream.isLoading (stream w)) hide m i)
      as [-> Hm].
    rewrite Hm in Hid. unfold uniqueKey. rewrite Hid. simpl.
    apply truthy_true_iff in Hk. now rewrite Hk. }
  intros i j bi bj Hi Hj Hne Ti Tj.
  rewrite map_with_index_nth in Hi, Hj.
  destruct (nth_error shown i) as [mi|]; [|discriminate].
  destruct (nth_error shown j) as [mj|]; [|discriminate].
  simpl in Hi, Hj. inversion Hi. inversion Hj. subst bi bj. unfold f in *.
  destruct (render_message_key now (Stream.isLoading (stream w)) hide mi i)
    as [Ki Mi].
  destruct (render_message_key now (Stream.isLoading (stream w)) hide mj j)
    as [Kj Mj].
  rewrite Ki, Kj. rewrite Mi in Ti. rewrite Mj in Tj.
  unfold uniqueKey. rewrite Ti, Tj.
  intros C. apply fallback_key_injective in C. contradiction.
Qed.

(* ------------------------------------------------------------------ *)
(** * The payload can be read back *)

Lemma unhex_hex_digit (d : N) :
  (d < 16)%N -> unhex (JsString.hex_digit d) = Some d.
Proof.
  intros H. unfold unhex, JsString.hex_digit.
  destruct (d <? 10)%N eqn:L.
  - apply N.ltb_lt in L.
    replace ((48 <=? 48 + d) && (48 + d <=? 57))%N with true.
    + f_equal. lia.
    + symmetry. apply andb_true_iff. split; apply N.leb_le; lia.
  - apply N.ltb_ge in L.
    replace ((48 <=? 87 + d) && (87 + d <=? 57))%N with false.
    + replace ((97 <=? 87 + d) && (87 + d <=? 102))%N with true.
      * f_equal. lia.
      * symmetry. apply andb_true_iff. split; apply N.leb_le; lia.
    + symmetry. apply andb_false_iff. right. apply N.leb_gt. lia.
Qed.

Lemma hex_digits_value (c : N) :
  (c < 65536)%N ->
  (4096 * ((c / 4096) mod 16) + 256 * ((c / 256) mod 16)
   + 16 * ((c / 16) mod 16) + c mod 16 = c)%N.
Proof.
  intros H.
  pose proof (N.div_mod' c 16) as E0.
  pose proof (N.div_mod' (c / 16) 16) as E1.
  pose proof (N.div_mod' (c / 256) 16) as E2.
  rewrite N.Div0.div_div in E1.
  change (16 * 16)%N with 256%N in E1.
  replace (c / 256 / 16)%N with (c / 4096)%N in E2
    by (rewrite N.Div0.div_div; reflexivity).
  assert (c / 4096 < 16)%N as B
    by (apply N.Div0.div_lt_upper_bound; exact H).
  rewrite (N.mod_small (c / 4096) 16) by exact B.
  lia.
Qed.

Lemma unicode_escape_hex4 (c : N) :
  (c < 65536)%N ->
  exists h3 h2 h1 h0,
    JsString.unicode_escape c = [92; 117; h3; h2; h1; h0]%N
    /\ hex4 h3 h2 h1 h0 = Some c.
Proof.
  intros H. unfold JsString.unicode_escape.
  do 4 eexists. split; [reflexivity|].
  unfold hex4.
  rewrite !unhex_hex_digit
    by (apply N.mod_upper_bound; discriminate).
  f_equal. now apply hex_digits_value.
Qed.

Lemma read_literal (c : N) (t : jsstring) :
  c <> 34%N -> c <> 92%N ->
  read_string_body (c :: t)
  = match read_string_body t with
    | Some (u, rest) => Some (c :: u, rest)
    | None => None
    end.
Proof.
  intros A B. cbn [read_string_body].
  apply N.eqb_neq in A, B. now rewrite A, B.
Qed.

Lemma read_unicode (c h3 h2 h1 h0 : N) (t : jsstring) :
  hex4 h3 h2 h1 h0 = Some c ->
  read_string_body (92 :: 117 :: h3 :: h2 :: h1 :: h0 :: t)%N
  = match read_string_body t with
    | Some (u, rest) => Some (c :: u, rest)
    | None => None
    end.
Proof.
  intros H. cbn [read_string_body].
  change (92 =? 34)%N with false. change (92 =? 92)%N with true.
  change (117 =? 117)%N with true. cbv iota. now rewrite H.
Qed.

(** One escaped code unit reads back as that code unit. *)
Lemma read_escape_unit (c : N) (t : jsstring) :
  read_string_body (JsString.json_escape_unit c ++ t)
  = match read_string_body t with
    | Some (u, rest) => Some (c :: u, rest)
    | None => None
    end.
Proof.
  unfold JsString.json_escape_unit.
  destruct (c =? 8)%N eqn:E8;
    [apply N.eqb_eq in E8; subst; reflexivity|].
  destruct (c =? 9)%N eqn:E9;
    [apply N.eqb_eq in E9; subst; reflexivity|].
  destruct (c =? 10)%N eqn:E10;
    [apply N.eqb_eq in E10; subst; reflexivity|].
  destruct (c =? 12)%N eqn:E12;
    [apply N.eqb_eq in E12; subst; reflexivity|].
  destruct (c =? 13)%N eqn:E13;
    [apply N.eqb_eq in E13; subst; reflexivity|].
  destruct (c =? 34)%N eqn:E34;
    [apply N.eqb_eq in E34; subst; reflexivity|].
  destruct (c =? 92)%N eqn:E92;
    [apply N.eqb_eq in E92; subst; reflexivity|].
  apply N.eqb_neq in E34, E92.
  destruct (c <? 32)%N eqn:L.
  - apply N.ltb_lt in L.
    destruct (unicode_escape_hex4 c) as (h3 & h2 & h1 & h0 & -> & Hx);
      [lia|].
    now apply read_unicode.
  - destruct (JsString.is_leading_surrogate c
              || JsString.is_trailing_surrogate c) eqn:S.
    + assert (c < 65536)%N as B.
      { unfold JsString.is_leading_surrogate,
          JsString.is_trailing_surrogate in S.
        apply orb_true_iff in S as [S|S];
          apply andb_true_iff in S as [_ S]; apply N.leb_le in S; lia. }
      destruct (unicode_escape_hex4 c B) as (h3 & h2 & h1 & h0 & -> & Hx).
      now apply read_unicode.
    + now apply read_literal.
Qed.

Lemma surrogate_is_literal (c : N) :
  JsString.is_leading_surrogate c = true
  \/ JsString.is_trailing_surrogate c = true ->
  c <> 34%N /\ c <> 92%N.
Proof.
  unfold JsString.is_leading_surrogate, JsString.is_trailing_surrogate.
  intros [S|S]; apply andb_true_iff in S as [S _]; apply N.leb_le in S;
    lia.
Qed.

Lemma json_escape_two (c d : N) (r : jsstring) :
  JsString.json_escape (c :: d :: r)
  = if JsString.is_leading_surrogate c && JsString.is_trailing_surrogate d
    then c :: d :: JsString.json_escape r
    else JsString.json_escape_unit c ++ JsString.json_escape (d :: r).
Proof. reflexivity. Qed.

(** The body of a quoted string, followed by the closing quotation mark,
    reads back as the string. *)
Lemma read_json_escape (s rest : jsstring) :
  read_string_body (JsString.json_escape s ++ 34%N :: rest)
  = Some (s, rest).
Proof.
  remember (length s) as n eqn:Len.
  revert s Len. induction n as [n IH] using lt_wf_ind. intros s Len.
  destruct s as [|c [|d r]].
  - reflexivity.
  - cbn [JsString.json_escape]. rewrite read_escape_unit. reflexivity.
  - rewrite json_escape_two.
    destruct (JsString.is_leading_surrogate c
              && JsString.is_trailing_surrogate d) eqn:P.
    + apply andb_true_iff in P as [Pc Pd].
      destruct (surrogate_is_literal c (or_introl Pc)) as [C1 C2].
      destruct (surrogate_is_literal d (or_intror Pd)) as [D1 D2].
      cbn [app]. rewrite (read_literal c _ C1 C2).
      rewrite (read_literal d _ D1 D2).
      rewrite (IH (length r) ltac:(subst n; simpl; lia) r eq_refl).
      reflexivity.
    + rewrite <- app_assoc, read_escape_unit.
      rewrite (IH (length (d :: r)) ltac:(subst n; simpl; lia)
                 (d :: r) eq_refl).
      reflexivity.
Qed.

(** A JSON string literal reads back as the string it was made from. *)
Lemma read_QuoteJSONString (s rest : jsstring) :
  read_string (JsString.QuoteJSONString s ++ rest) = Some (s, rest).
Proof.
  unfold JsString.QuoteJSONString. cbn [app read_string].
  change (34 =? 34)%N with true. cbv iota.
  rewrite <- app_assoc. apply read_json_escape.
Qed.

Lemma json_escape_cut (a b r r' : jsstring) :
  JsString.json_escape a ++ 34%N :: r
  = JsString.json_escape b ++ 34%N :: r' ->
  a = b /\ r = r'.
Proof.
  intros E. apply (f_equal read_string_body) in E.
  rewrite !read_json_escape in E. inversion E. auto.
Qed.

(** The payload tells the four values. *)
Lemma visualization_payload_injective
    (m l h t m' l' h' t' : jsstring) :
  visualization_payload m l h t = visualization_payload m' l' h' t' ->
  m = m' /\ l = l' /\ h = h' /\ t = t'.
Proof.
  unfold visualization_payload, quoted, JsString.QuoteJSONString.
  cbn. repeat (rewrite <- app_assoc; cbn). intros E.
  repeat match type of E with
         | ?x :: _ = ?x :: _ => injection E as E
         end.
  apply json_escape_cut in E as [-> E].
  repeat match type of E with
         | ?x :: _ = ?x :: _ => injection E as E
         end.
  apply json_escape_cut in E as [-> E].
  repeat match type of E with
         | ?x :: _ = ?x :: _ => injection E as E
         end.
  apply json_escape_cut in E as [-> E].
  repeat match type of E with
         | ?x :: _ = ?x :: _ => injection E as E
         end.
  apply json_escape_cut in E as [-> _].
  repeat split.
Qed.

(** X17. The content the visualization tool sends loses nothing: two
    submissions that pass the validation and produce the same message
    content were made with the same model, layer, head and text, whatever
    characters the text holds (quotation marks, backslashes, control
    characters, lone surrogates). *)
Theorem payload_determines_fields (p p' : LLMVizToolProps) :
  ~ validation_fails p ->
  ~ validation_fails p' ->
  JSON.stringify (visualization_request p)
  = JSON.stringify (visualization_request p') ->
  selectedModel p = selectedModel p'
  /\ selectedLayer p = selectedLayer p'
  /\ selectedHead p = selectedHead p'
  /\ controlText p = controlText p'.
Proof.
  intros V V' E.
  assert (forall q, ~ validation_fails q ->
            exists m l h,
              selectedModel q = Some m /\ selectedLayer q = Some l
              /\ selectedHead q = Some h) as Set_.
  { intros q Vq. unfold validation_fails in Vq.
    destruct (selectedModel q) as [m|]; [|exfalso; apply Vq; now left].
    destruct (selectedLayer q) as [l|];
      [|exfalso; apply Vq; right; now left].
    destruct (selectedHead q) as [h|];
      [|exfalso; apply Vq; right; right; now left].
    exists m, l, h. repeat split. }
  destruct (Set_ p V) as (m & l & h & Hm & Hl & Hh).
  destruct (Set_ p' V') as (m' & l' & h' & Hm' & Hl' & Hh').
  unfold visualization_request in E.
  rewrite Hm, Hl, Hh, Hm', Hl', Hh' in E.
  rewrite !stringify_request in E.
  apply visualization_payload_injective in E as (-> & -> & -> & T).
  rewrite Hm, Hl, Hh, Hm', Hl', Hh'. auto.
Qed.

(* ------------------------------------------------------------------ *)
(** * The error effect, run after run *)

(** X18. The error effect cannot fail. One run raises at most one
    notification and touches nothing but the notifications and the message
    last shown; a second run on the same error changes nothing at all, so
    an effect that React runs twice for one update notifies once. *)
Theorem error_effect_runs_are_harmless (w : World) :
  exists w',
    errorEffect w = Normal w'
    /\ errorEffect w' = Normal w'
    /\ state w' = state w
    /\ stream w' = stream w
    /\ prevMessageLength (refs w') = prevMessageLength (refs w)
    /\ submitted (log w') = submitted (log w)
    /\ consoleErrors (log w') = consoleErrors (log w)
    /\ uuidDrawn (log w') = uuidDrawn (log w)
    /\ (toasts (log w') = toasts (log w)
        \/ exists m,
             m <> []
             /\ lastError (refs w) <> Some m
             /\ lastError (refs w') = Some m
             /\ toasts (log w') = toasts (log w) ++ [error_toast (Some m)]).
Proof.
  destruct (errorEffect w) as [w'|x] eqn:H.
  - exists w'. split; [reflexivity|].
    split; [now apply errorEffect_idempotent with (w := w)|].
    apply errorEffect_cases in H
      as [[_ ->] | [-> | (e & m & _ & _ & Hm & Hl & ->)]];
      repeat split; try (left; reflexivity).
    right. exists m. repeat split; assumption.
  - exfalso. unfold errorEffect in H.
    destruct (Stream.error (stream w)); [|discriminate].
    destruct (negb (JsString.truthy_opt (Stream.message e))
              || strict_equal (lastError (refs w)) (Stream.message e));
      discriminate.
Qed.

(* ------------------------------------------------------------------ *)
(** * The further theorems on a sample session *)

Example session_runs :
  List.map Submit.values (submitted (log (Scenario.finish Scenario.session)))
  = [ Some [Message.human_literal (js "uuid-0") (js "weather in Paris?")];
      Some [Sample.question; Sample.answer;
            Message.human_literal (js "uuid-1")
              (visualization_payload (js "gpt2") (js "1") (js "1")
                 (js "The quick brown fox."))];
      None ].
Proof. vm_compute. reflexivity. Qed.

Lemma sample_helper_contract (ms : option (list Message.t)) :
  all_tool_calls_answered (Sample.ensureToolCallsHaveResponses ms) = true.
Proof.
  destruct ms as [l|]; [apply reconcile_answers_every_call | reflexivity].
Qed.

Lemma sample_uuid_injective (i j : nat) :
  Sample.uuid_source i = Sample.uuid_source j -> i = j.
Proof.
  unfold Sample.uuid_source. intros E.
  apply app_inv_head in E.
  assert (N.of_nat (48 + i) = N.of_nat (48 + j)) as E' by congruence.
  apply Nat2N.inj in E'. lia.
Qed.

Lemma submit_request_button_matches_handler_witness :
  (exists w',
     handleControlSubmit Sample.ensureToolCallsHaveResponses
       Sample.uuid_source (LLMVizTool_props Sample.loading_with_answer)
       Sample.loading_with_answer
     = Normal w'
     /\ submitted (log w') = [])
  /\
  (exists w' c,
     handleControlSubmit Sample.ensureToolCallsHaveResponses
       Sample.uuid_source (LLMVizTool_props Sample.pending) Sample.pending
     = Normal w'
     /\ submitted (log w') = [c]
     /\ toasts (log w') = []).
Proof.
  split.
  - destruct (submit_request_button_matches_handler
                Sample.ensureToolCallsHaveResponses Sample.uuid_source
                (LLMVizTool_props Sample.loading_with_answer)
                Sample.loading_with_answer) as [D _].
    destruct (D eq_refl) as (w' & H & S & _).
    exists w'. split; [exact H | exact S].
  - destruct (submit_request_button_matches_handler
                Sample.ensureToolCallsHaveResponses Sample.uuid_source
                (LLMVizTool_props Sample.pending) Sample.pending)
      as [_ E].
    destruct (E eq_refl) as (w' & c & H & S & _ & T & _).
    exists w', c. split; [exact H|]. split; [exact S | exact T].
Defined.

Lemma enter_key_submits_like_send_witness :
  (exists w' c,
     onKeyDown Sample.ensureToolCallsHaveResponses Sample.uuid_source
       Scenario.plain_enter Sample.pending
     = Normal w'
     /\ submitted (log w') = [c]
     /\ input (state w') = [])
  /\ onKeyDown Sample.ensureToolCallsHaveResponses Sample.uuid_source
       Scenario.shift_enter Sample.pending
     = Normal Sample.pending.
Proof.
  destruct (enter_key_submits_like_send
              Sample.ensureToolCallsHaveResponses Sample.uuid_source
              Scenario.plain_enter Sample.pending) as [A _].
  destruct (enter_key_submits_like_send
              Sample.ensureToolCallsHaveResponses Sample.uuid_source
              Scenario.shift_enter Sample.pending) as [_ B].
  split.
  - destruct (A eq_refl eq_refl eq_refl eq_refl)
      as (w' & c & H & S & _ & I).
    exists w', c. split; [exact H|]. split; [exact S | exact I].
  - apply B. right. left. reflexivity.
Defined.

Lemma composer_sends_iff_not_blank_witness :
  handleSubmit Sample.ensureToolCallsHaveResponses Sample.uuid_source
    Sample.blank_input
  = Normal Sample.blank_input
  /\ exists w' c m,
       handleSubmit Sample.ensureToolCallsHaveResponses Sample.uuid_source
         Sample.pending
       = Normal w'
       /\ submitted (log w') = [c]
       /\ Message.content m = js "never mind".
Proof.
  destruct (composer_sends_iff_not_blank
              Sample.ensureToolCallsHaveResponses Sample.uuid_source
              Sample.blank_input) as [A _].
  destruct (composer_sends_iff_not_blank
              Sample.ensureToolCallsHaveResponses Sample.uuid_source
              Sample.pending) as [_ B].
  split; [exact (A eq_refl)|].
  destruct (B eq_refl eq_refl) as (w' & c & m & H & S & _ & _ & C).
  exists w', c, m. split; [exact H|]. split; [exact S | exact C].
Defined.

Lemma first_token_effect_behaviour_witness :
  exists w',
    firstTokenEffect Sample.loading_with_answer = Normal w'
    /\ prevMessageLength (refs w') = 2%Z
    /\ firstTokenReceived (state w') = true.
Proof.
  destruct (first_token_effect_behaviour Sample.loading_with_answer
              [Sample.question; Sample.answer] eq_refl)
    as (w' & H & P & F & _).
  exists w'. split; [exact H|]. split; [exact P | exact F].
Defined.

Lemma regenerate_rearms_first_token_witness :
  exists w1 w2,
    handleRegenerate null Sample.no_model_after_first_token = Normal w1
    /\ firstTokenReceived (state w1) = false
    /\ firstTokenEffect (with_stream Scenario.answering w1) = Normal w2
    /\ firstTokenReceived (state w2) = true.
Proof.
  destruct (regenerate_rearms_first_token null
              Sample.no_model_after_first_token
              [Sample.question; Sample.answer]
              [Sample.question; Sample.answer]
              Scenario.answering
              eq_refl eq_refl eq_refl eq_refl eq_refl eq_refl)
    as [(w1 & w2 & H1 & F1 & H2 & F2 & _) _].
  exists w1, w2. repeat split; assumption.
Defined.

Lemma regenerate_projection_is_prefix_witness :
  exists w' c projected,
    handleRegenerate null Sample.after_first_token = Normal w'
    /\ submitted (log w') = [c]
    /\ Values.messages
         (Submit.optimisticValues (Submit.opts c)
            (Some {| Values.messages := Some [Sample.pending_call];
                     Values.rest := [] |}))
       = Some projected
    /\ length projected = 1.
Proof.
  destruct (regenerate_projection_is_prefix null Sample.after_first_token
              [Sample.question; Sample.answer] eq_refl eq_refl)
    as (w' & c & b & x & a & H & S & Hms & Hx & _ & P).
  destruct (P (Some {| Values.messages := Some [Sample.pending_call];
                       Values.rest := [] |}))
    as (projected & dropped & Hp & _ & Hl).
  exists w', c, projected.
  split; [exact H|]. split; [exact S|]. split; [exact Hp|].
  rewrite Hl.
  destruct b as [|q [|q' b]].
  - injection Hms as Hq _. rewrite <- Hq in Hx. discriminate Hx.
  - reflexivity.
  - injection Hms as _ _ Hb. destruct b; discriminate Hb.
Defined.

Lemma loading_placeholder_lifecycle_witness :
  exists w1 w2,
    handleSubmit Sample.ensureToolCallsHaveResponses Sample.uuid_source
      Sample.pending
    = Normal w1
    /\ showAssistantMessageLoading (with_stream Scenario.answering w1)
       = Normal true
    /\ firstTokenEffect (with_stream Scenario.answering w1) = Normal w2
    /\ showAssistantMessageLoading w2 = Normal false.
Proof.
  destruct (loading_placeholder_lifecycle
              Sample.ensureToolCallsHaveResponses Sample.uuid_source
              Sample.pending Scenario.answering
              [Sample.question; Sample.answer])
    as (w1 & H & Shown & Later).
  - discriminate.
  - reflexivity.
  - reflexivity.
  - reflexivity.
  - left. discriminate.
  - destruct Later as (w2 & H2 & Hidden).
    + reflexivity.
    + discriminate.
    + exists w1, w2. repeat split; assumption.
Defined.

Lemma backend_never_sees_unanswered_call_invariant_witness :
  backend_never_sees_unanswered_call (Scenario.finish Scenario.session).
Proof.
  apply (backend_never_sees_unanswered_call_invariant
           Sample.ensureToolCallsHaveResponses Sample.uuid_source
           Scenario.session Scenario.start).
  - apply sample_helper_contract.
  - constructor.
  - vm_compute. reflexivity.
Defined.

Lemma sent_messages_have_distinct_ids_witness :
  sent_message_ids (Scenario.finish Scenario.session)
  = [Some (js "uuid-0"); Some (js "uuid-1")]
  /\ NoDup (sent_message_ids (Scenario.finish Scenario.session)).
Proof.
  assert (run Sample.ensureToolCallsHaveResponses Sample.uuid_source
            Scenario.session Scenario.start
          = Normal (Scenario.finish Scenario.session)) as R
    by (vm_compute; reflexivity).
  destruct (sent_messages_have_distinct_ids
              Sample.ensureToolCallsHaveResponses Sample.uuid_source
              Scenario.session Scenario.start
              (Scenario.finish Scenario.session)
              eq_refl eq_refl R) as [I D].
  split.
  - rewrite I. vm_compute. reflexivity.
  - apply D. apply sample_uuid_injective.
Defined.

Lemma only_regenerate_submits_while_loading_witness :
  submitted
    (log (Sample.after
            (dispatch Sample.ensureToolCallsHaveResponses
               Sample.uuid_source SubmitForm Sample.loading_with_answer)
            Sample.loading_with_answer))
  = []
  \/ exists cp, SubmitForm = ClickRegenerate cp.
Proof.
  destruct (only_regenerate_submits_while_loading
              Sample.ensureToolCallsHaveResponses Sample.uuid_source
              SubmitForm Sample.loading_with_answer
              (Sample.after
                 (dispatch Sample.ensureToolCallsHaveResponses
                    Sample.uuid_source SubmitForm
                    Sample.loading_with_answer)
                 Sample.loading_with_answer)
              eq_refl ltac:(vm_compute; reflexivity))
    as (_ & _ & [S | (cp & c & E & _)]).
  - left. exact S.
  - right. exists cp. exact E.
Defined.

Lemma prevMessageLength_never_negative_witness :
  (0 <= prevMessageLength (refs (Scenario.finish Scenario.session)))%Z.
Proof.
  apply (prevMessageLength_never_negative
           Sample.ensureToolCallsHaveResponses Sample.uuid_source
           Scenario.session Scenario.start).
  - discriminate.
  - vm_compute. reflexivity.
Defined.

Lemma toasts_are_well_formed_witness :
  Forall well_formed_toast
    (toasts (log (Scenario.finish
                    (Scenario.editing ++ [ClickSubmitRequest])))).
Proof.
  apply (toasts_are_well_formed
           Sample.ensureToolCallsHaveResponses Sample.uuid_source
           (Scenario.editing ++ [ClickSubmitRequest]) Scenario.start).
  - constructor.
  - vm_compute. reflexivity.
Defined.

Lemma tool_fields_persist_witness :
  llmVizModel (state (Scenario.finish Scenario.session)) = Some (js "gpt2")
  /\ llmVizControlText (state (Scenario.finish Scenario.session))
     = js "The quick brown fox.".
Proof.
  destruct (tool_fields_persist
              Sample.ensureToolCallsHaveResponses Sample.uuid_source
              Scenario.session Scenario.start
              (Scenario.finish Scenario.session) eq_refl
              ltac:(vm_compute; reflexivity))
    as (M & _ & _ & T).
  split; [rewrite M | rewrite T]; reflexivity.
Defined.

Lemma only_blank_text_fails_validation_witness :
  selects_are_set (Scenario.finish Scenario.editing)
  /\ validation_fails (LLMVizTool_props (Scenario.finish Scenario.editing)).
Proof.
  destruct (only_blank_text_fails_validation
              Sample.ensureToolCallsHaveResponses Sample.uuid_source
              Scenario.editing None Scenario.empty_stream
              (Scenario.finish Scenario.editing)) as [S V].
  - repeat constructor; simpl; tauto.
  - vm_compute. reflexivity.
  - split; [exact S|]. apply V. vm_compute. reflexivity.
Defined.

Lemma tools_panel_shows_selected_tool_witness :
  toolsPanelBody
    (setSelectedToolId (Some (js "token-analyzer")) Scenario.start)
  = ToolView TokenAnalyzerTool None
  /\ toolsPanelBody
       (setSelectedToolId (Some (js "attention-rollout")) Scenario.start)
     = ToolNotFound.
Proof.
  destruct (tools_panel_shows_selected_tool Scenario.start)
    as (Sel & _ & _ & _).
  destruct (Sel {| tool_id := js "token-analyzer";
                   tool_name := js "Token Analyzer";
                   tool_description :=
                     Some (js "See how text is tokenized.");
                   tool_component := TokenAnalyzerTool |})
    as (_ & _ & B & _).
  - right. left. reflexivity.
  - split; [exact B | reflexivity].
Defined.

Lemma transcript_bubbles_and_keys_witness :
  exists bubbles,
    transcript Scenario.prefix Scenario.clock false Scenario.mixed
    = Normal bubbles
    /\ List.map bubble_key bubbles
       = [js "human-0-1000"; js "ai-1-1001"; js "m3"]
    /\ List.map bubble_message bubbles
       = [Scenario.anonymous Message.human "hi";
          Scenario.anonymous Message.ai "hello"; Sample.answer].
Proof.
  destruct (transcript_bubbles_and_keys Scenario.prefix Scenario.clock
              false Scenario.mixed
              [Scenario.anonymous Message.human "hi"; Scenario.hidden;
               Scenario.anonymous Message.ai "hello"; Sample.answer]
              eq_refl)
    as (bubbles & H & M & _).
  exists bubbles. split; [exact H|]. split; [|exact M].
  injection H as <-. reflexivity.
Defined.

Lemma payload_determines_fields_witness :
  controlText (LLMVizTool_props Sample.pending)
  = controlText (LLMVizTool_props Sample.blank_input).
Proof.
  destruct (payload_determines_fields
              (LLMVizTool_props Sample.pending)
              (LLMVizTool_props Sample.blank_input))
    as (_ & _ & _ & T).
  - intros [V | [V | [V | V]]]; discriminate V.
  - intros [V | [V | [V | V]]]; discriminate V.
  - reflexivity.
  - exact T.
Defined.
